(** * fuNTrack: the presence tracker of [main.py]

    A shallow embedding of the presence state machine of [main.py]: the
    module globals ([clients], [state], [online_since], [offline_task]),
    the coroutines [broadcast], [delayed_offline], [telegram_worker] with
    its nested [handler], and [websocket_endpoint].

    Modelling decisions, all of them stated where they are made:
    - a [datetime] is a whole number of microseconds since the Unix epoch
      (UTC), the resolution of [utcnow()];
    - the asyncio event loop is a table of tasks; [asyncio.sleep] is split
      at its suspension point, and the wake-up is an input of the system;
    - every coroutine body runs atomically between two inputs (the
      interleavings at the [await]s inside [broadcast] are not modelled);
    - which websockets are broken at a given moment is an environment
      parameter read by [send_json]. *)

From Stdlib Require Import ZArith Lia.
From stdpp Require Import base gmap sets list strings.

Local Open Scope string_scope.
Local Open Scope Z_scope.
Local Open Scope list_scope.

(** ** Time and [strftime("%Y-%m-%d %H:%M:%S")] *)

(** [timedelta(seconds=n)] on the microsecond clock. *)
Definition seconds (n : Z) : Z := n * 1000000.

Module Strftime.

Definition digit (d : Z) : Ascii.ascii := Ascii.ascii_of_nat (Z.to_nat (48 + d mod 10)).

Definition pad2 (n : Z) : string :=
  String (digit (n / 10)) (String (digit n) EmptyString).

Definition pad4 (n : Z) : string := pad2 (n / 100) +:+ pad2 n.

(** Proleptic Gregorian date of a day number counted from 1970-01-01. *)
Definition civil_from_days (days : Z) : Z * Z * Z :=
  let z := days + 719468 in
  let era := z / 146097 in
  let doe := z mod 146097 in
  let yoe := (doe - doe / 1460 + doe / 36524 - doe / 146096) / 365 in
  let doy := doe - (365 * yoe + yoe / 4 - yoe / 100) in
  let mp := (5 * doy + 2) / 153 in
  let d := doy - (153 * mp + 2) / 5 + 1 in
  let m := if mp <? 10 then mp + 3 else mp - 9 in
  let y := yoe + era * 400 + (if m <=? 2 then 1 else 0) in
  (y, m, d).

Definition strftime (t : Z) : string :=
  let '(y, m, d) := civil_from_days (t / 1000000 / 86400) in
  let secs := t / 1000000 mod 86400 in
  pad4 y +:+ "-" +:+ pad2 m +:+ "-" +:+ pad2 d +:+ " " +:+
  pad2 (secs / 3600) +:+ ":" +:+ pad2 (secs / 60 mod 60) +:+ ":" +:+ pad2 (secs mod 60).

End Strftime.

(** ** Telethon's types, as far as [main.py] inspects them *)

Inductive user_status :=
| UserStatusEmpty
| UserStatusOnline (expires : Z)
| UserStatusOffline (was_online : option Z)
| UserStatusRecently
| UserStatusLastWeek
| UserStatusLastMonth.

(** What [events.Raw] delivers: an [UpdateUserStatus] or any other update. *)
Inductive raw_event :=
| UpdateUserStatus (user_id : Z) (status : user_status)
| OtherUpdate.

(** ** Global state *)

(** The [state] dict: four fixed string keys. *)
Record snapshot := Snapshot {
  name : string;
  status : string;
  last_seen : string;
  duration : string;
}.

Definition set_status (v : string) (d : snapshot) : snapshot :=
  {| name := name d; status := v; last_seen := last_seen d; duration := duration d |}.

Definition set_last_seen (v : string) (d : snapshot) : snapshot :=
  {| name := name d; status := status d; last_seen := v; duration := duration d |}.

Definition set_duration (v : string) (d : snapshot) : snapshot :=
  {| name := name d; status := status d; last_seen := last_seen d; duration := v |}.

(** An [asyncio.Task] running [delayed_offline]: suspended in
    [asyncio.sleep] until [wake_at], cancelled, or run to completion. *)
Inductive task :=
| Sleeping (wake_at : Z)
| Cancelled
| Finished.

(** The globals of the module, the event loop's tasks (a task object is
    its index in [tasks]; [offline_task] holds such a reference), and the
    [user_id] local of [telegram_worker], which is [Some] once the
    identity is resolved and [handler] is registered. *)
Record sys := Sys {
  clients : gset nat;
  state : snapshot;
  online_since : option Z;
  offline_task : option nat;
  tasks : list task;
  user_id : option Z;
}.

(** [OFFLINE_DELAY = 40  # seconds] *)
Definition OFFLINE_DELAY : Z := seconds 40.

(** The module right after import, with [TARGET_NAME] from the environment. *)
Definition initial (TARGET_NAME : string) : sys :=
  {| clients := ∅;
     state := {| name := TARGET_NAME; status := "CONNECTING";
                 last_seen := "--"; duration := EmptyString |};
     online_since := None;
     offline_task := None;
     tasks := [];
     user_id := None |}.

Definition with_clients (c : gset nat) (s : sys) : sys :=
  {| clients := c; state := state s; online_since := online_since s;
     offline_task := offline_task s; tasks := tasks s; user_id := user_id s |}.

Definition with_state (d : snapshot) (s : sys) : sys :=
  {| clients := clients s; state := d; online_since := online_since s;
     offline_task := offline_task s; tasks := tasks s; user_id := user_id s |}.

Definition with_online_since (o : option Z) (s : sys) : sys :=
  {| clients := clients s; state := state s; online_since := o;
     offline_task := offline_task s; tasks := tasks s; user_id := user_id s |}.

Definition with_offline_task (o : option nat) (s : sys) : sys :=
  {| clients := clients s; state := state s; online_since := online_since s;
     offline_task := o; tasks := tasks s; user_id := user_id s |}.

Definition with_tasks (l : list task) (s : sys) : sys :=
  {| clients := clients s; state := state s; online_since := online_since s;
     offline_task := offline_task s; tasks := l; user_id := user_id s |}.

Definition with_user_id (o : option Z) (s : sys) : sys :=
  {| clients := clients s; state := state s; online_since := online_since s;
     offline_task := offline_task s; tasks := tasks s; user_id := o |}.

(** ** The monad of the coroutines

    A coroutine reads the environment (the set of websockets whose
    [send_json] raises at this moment), updates the globals, returns or
    raises, and leaves a log of what it did at the observer interface. *)

(** What a closed or broken websocket raises; both derive from
    [Exception], which is what [broadcast] catches. *)
Inductive exn := WebSocketDisconnect | RuntimeError.

Inductive outcome (A : Type) :=
| Returned (a : A)
| Raised (e : exn).
Arguments Returned {A} a.
Arguments Raised {A} e.

(** [BroadcastCall d]: [broadcast()] was entered while [state] was [d].
    [SendJson ws d ok]: [ws.send_json(state)] was called while [state] was
    [d]; [ok] tells whether it returned (true) or raised (false). *)
Inductive output :=
| BroadcastCall (payload : snapshot)
| SendJson (ws : nat) (payload : snapshot) (ok : bool).

Definition M (A : Type) : Type :=
  gset nat → sys → outcome A * sys * list output.

#[global] Instance M_ret : MRet M := λ A a _ s, (Returned a, s, []).

#[global] Instance M_bind : MBind M := λ A B f m env s,
  match m env s with
  | (Returned a, s1, o1) =>
      let '(r, s2, o2) := f a env s1 in (r, s2, o1 ++ o2)
  | (Raised e, s1, o1) => (Raised e, s1, o1)
  end.

Definition get : M sys := λ _ s, (Returned s, s, []).

Definition modify (f : sys → sys) : M unit := λ _ s, (Returned (), f s, []).

Definition tell (o : output) : M unit := λ _ s, (Returned (), s, [o]).

Definition raise {A} (e : exn) : M A := λ _ s, (Raised e, s, []).

(** [try: m except Exception: h] *)
Definition try_except {A} (m : M A) (h : M A) : M A := λ env s,
  match m env s with
  | (Returned a, s1, o1) => (Returned a, s1, o1)
  | (Raised _, s1, o1) => let '(r, s2, o2) := h env s1 in (r, s2, o1 ++ o2)
  end.

(** [for x in l: body(x)] *)
Fixpoint for_each {A} (l : list A) (body : A → M unit) : M unit :=
  match l with
  | [] => mret ()
  | x :: rest => body x;; for_each rest body
  end.

(** ** The coroutines of [main.py] *)

(** [await ws.send_json(state)]: the dict is serialised when the call is
    made; the call raises when the websocket is broken. *)
Definition send_json (ws : nat) : M unit := λ env s,
  if decide (ws ∈ env)
  then (Raised RuntimeError, s, [SendJson ws (state s) false])
  else (Returned (), s, [SendJson ws (state s) true]).

(** [clients.add(ws)] and [clients.discard(ws)] *)
Definition clients_add (ws : nat) : M unit :=
  modify (λ s, with_clients ({[ws]} ∪ clients s) s).

Definition clients_discard (ws : nat) : M unit :=
  modify (λ s, with_clients (clients s ∖ {[ws]}) s).

(** [state[key] = v], through the setter of the key *)
Definition state_set (f : snapshot → snapshot) : M unit :=
  modify (λ s, with_state (f (state s)) s).

(** [broadcast()]: the loop runs over [list(clients)], a copy made on
    entry, while [clients.discard] changes the set itself. *)
Definition broadcast : M unit :=
  s ← get;
  tell (BroadcastCall (state s));;
  for_each (elements (clients s))
    (λ ws, try_except (send_json ws) (clients_discard ws)).

(** [task.cancel()]: a task that is still suspended in its sleep never
    resumes; on a finished or cancelled task the call does nothing. *)
Definition cancelled (t : nat) (s : sys) : sys :=
  match tasks s !! t with
  | Some (Sleeping _) => with_tasks (<[t := Cancelled]> (tasks s)) s
  | _ => s
  end.

Definition cancel (t : nat) : M unit := modify (cancelled t).

(** [asyncio.create_task(delayed_offline())] at time [now]: the new task
    runs up to [await asyncio.sleep(OFFLINE_DELAY)]; the call returns the
    task object. *)
Definition create_task (now : Z) : M nat := λ _ s,
  (Returned (length (tasks s)),
   with_tasks (tasks s ++ [Sleeping (now + OFFLINE_DELAY)]) s,
   []).

(** [delayed_offline()], from the return of the sleep on; [now] is the
    value of [utcnow()] read there. *)
Definition delayed_offline (now : Z) : M unit :=
  s ← get;
  match online_since s with
  | None =>
      state_set (set_status "OFFLINE");;
      state_set (set_last_seen (Strftime.strftime now));;
      state_set (set_duration EmptyString);;
      broadcast
  | Some _ => mret ()
  end.

(** The event loop resumes task [t] at time [now]: only a task still
    sleeping, and whose delay has elapsed, runs the rest of its body. The
    body runs in one step, its broadcast included: a cancellation that
    reaches the task while it is suspended inside [send_json], which
    would drop the sends still to come, is outside the model. *)
Definition sleep_elapsed (now : Z) (t : nat) : M unit :=
  s ← get;
  match tasks s !! t with
  | Some (Sleeping wake_at) =>
      if decide (wake_at ≤ now) then
        delayed_offline now;;
        modify (λ s, with_tasks (<[t := Finished]> (tasks s)) s)
      else mret ()
  | _ => mret ()
  end.

(** [handler(event)] of [telegram_worker], whose local [user_id] is
    [uid]; [now] is the value of [utcnow()]. *)
Definition handler (uid : Z) (now : Z) (event : raw_event) : M unit :=
  match event with
  | OtherUpdate => mret ()
  | UpdateUserStatus event_user_id event_status =>
      if decide (event_user_id ≠ uid) then mret () else
      match event_status with
      | UserStatusOnline _ =>
          s ← get;
          match offline_task s with
          | Some t => cancel t;; modify (with_offline_task None)
          | None => mret ()
          end;;
          s ← get;
          if decide (status (state s) ≠ "ONLINE") then
            state_set (set_status "ONLINE");;
            modify (with_online_since (Some now));;
            state_set (set_duration EmptyString);;
            broadcast
          else mret ()
      | UserStatusOffline _ =>
          modify (with_online_since None);;
          s ← get;
          match offline_task s with
          | Some t => cancel t
          | None => mret ()
          end;;
          t ← create_task now;
          modify (with_offline_task (Some t))
      | _ => mret ()
      end
  end.

(** [telegram_worker()] from the resolved [user] on ([uid] is [user.id],
    [user_status] is [user.status]): the initial status sync, the first
    broadcast, and the registration of [handler]. *)
Definition telegram_worker (now : Z) (uid : Z) (user_status : user_status) : M unit :=
  match user_status with
  | UserStatusOnline _ =>
      state_set (set_status "ONLINE");;
      modify (with_online_since (Some now));;
      state_set (set_duration EmptyString)
  | _ =>
      state_set (set_status "OFFLINE");;
      match user_status with
      | UserStatusOffline (Some was_online) =>
          state_set (set_last_seen (Strftime.strftime was_online))
      | _ => state_set (set_last_seen "--")
      end
  end;;
  broadcast;;
  modify (with_user_id (Some uid)).

(** [websocket_endpoint(ws)], from the return of [ws.accept()] up to the
    receive loop. *)
Definition websocket_endpoint (ws : nat) : M unit :=
  clients_add ws;;
  send_json ws.

(** [websocket_endpoint(ws)]: [receive_text] raises
    [WebSocketDisconnect]. *)
Definition websocket_disconnect (ws : nat) : M unit :=
  clients_discard ws.

(** ** The system: inputs and runs *)

Inductive input :=
| WorkerStarts (now : Z) (uid : Z) (st : user_status)
| RawEvent (now : Z) (event : raw_event)
| SleepElapsed (now : Z) (t : nat)
| WsConnect (ws : nat)
| WsDisconnect (ws : nat).

(** The lifespan starts one worker; Telethon calls [handler] only once it
    is registered. *)
Definition step (i : input) : M unit :=
  match i with
  | WorkerStarts now uid st =>
      s ← get;
      match user_id s with
      | None => telegram_worker now uid st
      | Some _ => mret ()
      end
  | RawEvent now event =>
      s ← get;
      match user_id s with
      | Some uid => handler uid now event
      | None => mret ()
      end
  | SleepElapsed now t => sleep_elapsed now t
  | WsConnect ws => websocket_endpoint ws
  | WsDisconnect ws => websocket_disconnect ws
  end.

(** A run: each input comes with the set of websockets broken at that
    moment. An exception ends the coroutine that raised it, not the
    process. Each input's coroutine runs to completion before the next
    input: what is proved of runs concerns the state, the handles and the
    calls of [broadcast], not the interleaving of two coroutines inside
    one broadcast. *)
Fixpoint run (tr : list (gset nat * input)) (s : sys) : sys * list output :=
  match tr with
  | [] => (s, [])
  | (env, i) :: rest =>
      let '(_, s1, o1) := step i env s in
      let '(s2, o2) := run rest s1 in
      (s2, o1 ++ o2)
  end.

Definition reachable (s : sys) : Prop :=
  ∃ TARGET_NAME tr, (run tr (initial TARGET_NAME)).1 = s.

(** ** Observations on a log *)

(** The broadcasts of a log, as the snapshots they carried. *)
Definition broadcasts (log : list output) : list snapshot :=
  omap (λ o, match o with BroadcastCall d => Some d | _ => None end) log.

(** The websockets that received a snapshot. *)
Definition delivered (log : list output) : list (nat * snapshot) :=
  omap (λ o, match o with SendJson ws d true => Some (ws, d) | _ => None end) log.

(** What one call of [broadcast()] leaves in the log. *)
Definition broadcast_log (env : gset nat) (s : sys) : list output :=
  BroadcastCall (state s) ::
  map (λ ws, SendJson ws (state s) (bool_decide (ws ∉ env))) (elements (clients s)).

(** ** Debounce handles *)

Definition is_sleeping (k : task) : bool :=
  match k with Sleeping _ => true | _ => false end.

(** A live handle: a task that can still fire. *)
Definition live (s : sys) (t : nat) : Prop :=
  ∃ wake_at, tasks s !! t = Some (Sleeping wake_at).

Definition live_count (s : sys) : nat :=
  length (List.filter is_sleeping (tasks s)).

(** Every live handle is the one [offline_task] refers to. *)
Definition handle_inv (s : sys) : Prop :=
  ∀ t, live s t → offline_task s = Some t.

(** ** The effects of the coroutines in closed form

    Plain functions on [sys], one per path through the code; the lemmas
    of the next part show that the coroutines compute them. *)

(** What a raw event means to [handler] when it tracks [uid]. *)
Inductive presence := BecameOnline | BecameOffline.

Definition classify (uid : Z) (event : raw_event) : option presence :=
  match event with
  | UpdateUserStatus u (UserStatusOnline _) =>
      if decide (u = uid) then Some BecameOnline else None
  | UpdateUserStatus u (UserStatusOffline _) =>
      if decide (u = uid) then Some BecameOffline else None
  | _ => None
  end.

(** The event is no user-status update, or is about another identity. *)
Definition foreign (uid : Z) (event : raw_event) : Prop :=
  match event with
  | OtherUpdate => True
  | UpdateUserStatus u _ => u ≠ uid
  end.

(** [broadcast]: the broken websockets leave the set. *)
Definition pruned (env : gset nat) (s : sys) : sys :=
  with_clients (clients s ∖ env) s.

(** ONLINE branch, first [if]: the pending handle is cancelled and dropped. *)
Definition drop_handle (s : sys) : sys :=
  match offline_task s with
  | Some t => with_offline_task None (cancelled t s)
  | None => s
  end.

(** ONLINE branch, second [if], before its broadcast. *)
Definition go_online (now : Z) (s : sys) : sys :=
  with_state (set_duration EmptyString (set_status "ONLINE" (state s)))
    (with_online_since (Some now) s).

(** OFFLINE branch: the state once the old handle is cancelled ... *)
Definition disarmed (s : sys) : sys :=
  match offline_task s with
  | Some t => cancelled t (with_online_since None s)
  | None => with_online_since None s
  end.

(** ... and once the new one is installed. *)
Definition armed (now : Z) (s : sys) : sys :=
  with_offline_task (Some (length (tasks s)))
    (with_tasks (tasks s ++ [Sleeping (now + OFFLINE_DELAY)]) s).

(** [delayed_offline] past its guard, before its broadcast. *)
Definition confirm_offline (now : Z) (s : sys) : sys :=
  with_state
    (set_duration EmptyString
       (set_last_seen (Strftime.strftime now)
          (set_status "OFFLINE" (state s)))) s.

Definition finished (t : nat) (s : sys) : sys :=
  with_tasks (<[t := Finished]> (tasks s)) s.

(** [telegram_worker]: the initial status sync, before its broadcast. *)
Definition synced (now : Z) (st : user_status) (s : sys) : sys :=
  match st with
  | UserStatusOnline _ => go_online now s
  | UserStatusOffline (Some was_online) =>
      with_state (set_last_seen (Strftime.strftime was_online)
                    (set_status "OFFLINE" (state s))) s
  | _ => with_state (set_last_seen "--" (set_status "OFFLINE" (state s))) s
  end.

(** The time an input carries, if any. *)
Definition input_time (i : input) : option Z :=
  match i with
  | WorkerStarts now _ _ | RawEvent now _ | SleepElapsed now _ => Some now
  | WsConnect _ | WsDisconnect _ => None
  end.

(** ** The system as a labelled transition relation

    [effect env s i s' log]: input [i], met in state [s] while the
    websockets of [env] are broken, leads to [s'] and leaves [log]. *)
Inductive effect (env : gset nat) (s : sys) : input → sys → list output → Prop :=
| effect_worker now uid st :
    user_id s = None →
    effect env s (WorkerStarts now uid st)
      (with_user_id (Some uid) (pruned env (synced now st s)))
      (broadcast_log env (synced now st s))
| effect_worker_running now uid st :
    is_Some (user_id s) →
    effect env s (WorkerStarts now uid st) s []
| effect_unregistered now event :
    user_id s = None →
    effect env s (RawEvent now event) s []
| effect_ignored uid now event :
    user_id s = Some uid → classify uid event = None →
    effect env s (RawEvent now event) s []
| effect_online_again uid now event :
    user_id s = Some uid → classify uid event = Some BecameOnline →
    status (state s) = "ONLINE" →
    effect env s (RawEvent now event) (drop_handle s) []
| effect_online uid now event :
    user_id s = Some uid → classify uid event = Some BecameOnline →
    status (state s) ≠ "ONLINE" →
    effect env s (RawEvent now event)
      (pruned env (go_online now (drop_handle s)))
      (broadcast_log env (go_online now (drop_handle s)))
| effect_offline uid now event :
    user_id s = Some uid → classify uid event = Some BecameOffline →
    effect env s (RawEvent now event) (armed now (disarmed s)) []
| effect_fires now t wake_at :
    tasks s !! t = Some (Sleeping wake_at) → wake_at ≤ now →
    online_since s = None →
    effect env s (SleepElapsed now t)
      (finished t (pruned env (confirm_offline now s)))
      (broadcast_log env (confirm_offline now s))
| effect_superseded now t wake_at :
    tasks s !! t = Some (Sleeping wake_at) → wake_at ≤ now →
    is_Some (online_since s) →
    effect env s (SleepElapsed now t) (finished t s) []
| effect_early now t wake_at :
    tasks s !! t = Some (Sleeping wake_at) → now < wake_at →
    effect env s (SleepElapsed now t) s []
| effect_dead now t :
    ¬ live s t →
    effect env s (SleepElapsed now t) s []
| effect_connect ws :
    effect env s (WsConnect ws)
      (with_clients ({[ws]} ∪ clients s) s)
      [SendJson ws (state s) (bool_decide (ws ∉ env))]
| effect_disconnect ws :
    effect env s (WsDisconnect ws) (with_clients (clients s ∖ {[ws]}) s) [].

(** ** Concrete states and runs for the examples *)

(** Two observers connect, then the worker finds the identity (id 7)
    offline, last seen 1700000000 seconds after the epoch, which is
    2023-11-14 22:13:20 UTC. *)
Definition found_offline_trace : list (gset nat * input) :=
  [(∅, WsConnect 1%nat); (∅, WsConnect 2%nat);
   (∅, WorkerStarts (seconds 1700000050) 7
         (UserStatusOffline (Some (seconds 1700000000))))].

Definition found_offline : sys := (run found_offline_trace (initial "User")).1.

(** The worker found the identity (id 7) online at time 0. *)
Definition found_online : sys :=
  (run [(∅, WsConnect 1%nat);
        (∅, WorkerStarts 0 7 (UserStatusOnline (seconds 300)))]
       (initial "User")).1.

(** The identity (id 7) was found online, then reported offline 5 seconds
    later: a handle is pending. *)
Definition pending_offline : sys :=
  (run [(∅, RawEvent (seconds 5)
              (UpdateUserStatus 7 (UserStatusOffline (Some (seconds 5)))))]
       found_online).1.

(** ** Episodes *)

(** Input [i] happens at or after [t1] and less than [OFFLINE_DELAY]
    seconds after it (connections carry no time). *)
Definition in_window (t1 : Z) (i : input) : Prop :=
  match input_time i with
  | Some now => t1 ≤ now < t1 + OFFLINE_DELAY
  | None => True
  end.


(** What an episode without confirmed offline does to the observers:
    nothing, or one broadcast of ONLINE when the status was not ONLINE. *)
Definition flicker_summary (s s' : sys) (sent : list snapshot) : Prop :=
  (sent = [] ∧ status (state s') = status (state s)) ∨
  (status (state s) ≠ "ONLINE" ∧ status (state s') = "ONLINE" ∧
   ∃ d, sent = [d] ∧ status d = "ONLINE").

(** Inside the window opened at [t1]: [handler] is registered for [uid]
    and no sleeping task can wake before the window closes. *)
Definition window_inv (uid : Z) (t1 : Z) (s : sys) : Prop :=
  user_id s = Some uid ∧
  ∀ t w, tasks s !! t = Some (Sleeping w) → t1 + OFFLINE_DELAY ≤ w.

(** Input [i] is not a 'became offline' event of the tracked identity
    [uid]: it opens no new episode. *)
Definition no_offline_report (uid : Z) (i : input) : Prop :=
  match i with
  | RawEvent _ event => classify uid event ≠ Some BecameOffline
  | _ => True
  end.

(** After the flicker: [handler] tracks [uid], the status is ONLINE and no
    timer is pending. *)
Definition settled_inv (uid : Z) (s : sys) : Prop :=
  user_id s = Some uid ∧ status (state s) = "ONLINE" ∧ ∀ t, ¬ live s t.

(** The instant of the offline report that opens the flicker of the
    examples: 1700000100.3 s. *)
Definition flicker_start : Z := seconds 1700000100 + 300000.

(** A flicker met while the status is OFFLINE, after the offline report
    at [flicker_start]: a new observer, a second offline report 10 s
    later, and a wake-up attempt on the first task 39.9 s after the
    start. *)
Definition flicker_mid : list (gset nat * input) :=
  [(∅, WsConnect 3%nat);
   ({[1%nat]}, RawEvent (flicker_start + seconds 10)
                 (UpdateUserStatus 7 (UserStatusOffline (Some (seconds 1700000110)))));
   (∅, SleepElapsed (flicker_start + 39900000) 0%nat)].

(** The instant of the online event that ends the flicker: 39.95 s after
    its start. *)
Definition flicker_end : Z := flicker_start + 39950000.

(** What follows the flicker: the wake-ups the event loop could attempt
    on both tasks once their delays have elapsed, a repeated online
    event, an event about another identity, a new observer, and
    wake-ups long after. *)
Definition flicker_tail : list (gset nat * input) :=
  [(∅, SleepElapsed (flicker_start + seconds 40) 0%nat);
   (∅, SleepElapsed (flicker_start + seconds 50) 1%nat);
   ({[3%nat]}, RawEvent (flicker_start + seconds 55)
                 (UpdateUserStatus 7 (UserStatusOnline (seconds 1700000455))));
   (∅, RawEvent (flicker_start + seconds 56)
         (UpdateUserStatus 8 (UserStatusOffline None)));
   (∅, WsConnect 4%nat);
   (∅, SleepElapsed (flicker_start + seconds 100000) 0%nat);
   (∅, SleepElapsed (flicker_start + seconds 100000) 1%nat)].




(** A further offline report at 1700000100 s, and the wake-up of the task
    it created, 40 seconds later. *)
Definition offline_again (s : sys) : list (gset nat * input) :=
  [(∅, RawEvent (seconds 1700000100)
         (UpdateUserStatus 7 (UserStatusOffline (Some (seconds 1700000100)))));
   (∅, SleepElapsed (seconds 1700000140) (length (tasks s)))].


(** ** Further observations on logs and runs *)

(** Every snapshot that left the process, by broadcast or at registration,
    whether or not the send succeeded. *)
Definition payloads (log : list output) : list snapshot :=
  omap (λ o, match o with SendJson _ d _ => Some d | BroadcastCall _ => None end) log.

(** No two successive snapshots of the list both carry ONLINE. *)
Fixpoint no_online_pair (l : list snapshot) : Prop :=
  match l with
  | d1 :: rest =>
      match rest with
      | d2 :: _ => ¬ (status d1 = "ONLINE" ∧ status d2 = "ONLINE")
      | [] => True
      end ∧ no_online_pair rest
  | [] => True
  end.

(** A status that [main.py] tests for with neither [isinstance]: empty,
    recently, last week, last month. *)
Definition hidden (st : user_status) : Prop :=
  match st with
  | UserStatusOnline _ | UserStatusOffline _ => False
  | _ => True
  end.

(** What the initial sync stores as [last_seen]. *)
Definition synced_last_seen (st : user_status) : string :=
  match st with
  | UserStatusOffline (Some was_online) => Strftime.strftime was_online
  | _ => "--"
  end.

(** What a well-formed snapshot of a run for [TARGET_NAME] looks like on
    the wire. *)
Definition wire_ok (TARGET_NAME : string) (d : snapshot) : Prop :=
  name d = TARGET_NAME ∧
  duration d = EmptyString ∧
  status d ∈ ["CONNECTING"; "ONLINE"; "OFFLINE"] ∧
  (last_seen d = "--" ∨ ∃ t, last_seen d = Strftime.strftime t).

(** A pending handle can only belong to an offline report not yet
    contradicted; before the identity is resolved there is none. *)
Definition guard_inv (s : sys) : Prop :=
  handle_inv s ∧
  (∀ t, live s t → online_since s = None) ∧
  (user_id s = None → ∀ t, ¬ live s t).

(** [online_since] is set only while the status is ONLINE, and never
    before the identity is resolved. *)
Definition since_inv (s : sys) : Prop :=
  (is_Some (online_since s) → status (state s) = "ONLINE") ∧
  (user_id s = None → online_since s = None).

(** The module state as long as the worker has not resolved the identity:
    only [clients] can differ from [initial]. *)
Definition unresolved (TARGET_NAME : string) (s : sys) : Prop :=
  state s = state (initial TARGET_NAME) ∧ online_since s = None ∧
  offline_task s = None ∧ tasks s = [] ∧ user_id s = None.

(** * Proofs *)

(** ** The date format on known instants *)

Example strftime_epoch : Strftime.strftime 0 = "1970-01-01 00:00:00".
Proof. vm_compute. reflexivity. Qed.

Example strftime_2023 :
  Strftime.strftime (seconds 1700000000) = "2023-11-14 22:13:20".
Proof. vm_compute. reflexivity. Qed.

Example strftime_leap_day :
  Strftime.strftime (seconds 1709210096) = "2024-02-29 12:34:56".
Proof. vm_compute. reflexivity. Qed.

Example strftime_drops_microseconds :
  Strftime.strftime (seconds 1709210096 + 999999) = "2024-02-29 12:34:56".
Proof. vm_compute. reflexivity. Qed.

(** ** Running the monad *)

Arguments handler : simpl never.
Arguments telegram_worker : simpl never.
Arguments sleep_elapsed : simpl never.
Arguments broadcast : simpl never.

Ltac exec :=
  unfold websocket_endpoint, websocket_disconnect, clients_add,
    clients_discard, cancel, state_set, create_task, send_json,
    try_except, mbind, M_bind, mret, M_ret, get, modify, tell, raise;
  simpl.

Lemma sys_eq (s1 s2 : sys) :
  clients s1 = clients s2 → state s1 = state s2 →
  online_since s1 = online_since s2 → offline_task s1 = offline_task s2 →
  tasks s1 = tasks s2 → user_id s1 = user_id s2 → s1 = s2.
Proof. destruct s1, s2; simpl; congruence. Qed.

(** ** [broadcast] *)

Ltac sys_eq := apply sys_eq; simpl; try done; try set_solver.

Lemma broadcast_loop_spec env l s :
  for_each l (λ ws, try_except (send_json ws) (clients_discard ws)) env s =
  (Returned (),
   with_clients (clients s ∖ (list_to_set l ∩ env)) s,
   map (λ ws, SendJson ws (state s) (bool_decide (ws ∉ env))) l).
Proof.
  revert s. induction l as [|ws l IH]; intros s.
  - simpl. exec. f_equal. f_equal. sys_eq.
  - simpl. exec. destruct (decide (ws ∈ env)) as [Hin|Hout]; simpl.
    + rewrite IH. simpl. rewrite bool_decide_eq_false_2 by tauto.
      f_equal. f_equal. sys_eq.
    + rewrite IH. simpl. rewrite bool_decide_eq_true_2 by done.
      f_equal. f_equal. sys_eq.
Qed.

Lemma broadcast_spec env s :
  broadcast env s =
  (Returned (), with_clients (clients s ∖ env) s, broadcast_log env s).
Proof.
  unfold broadcast. exec. rewrite broadcast_loop_spec. unfold broadcast_log.
  simpl. f_equal. f_equal. sys_eq.
Qed.

(** ** The coroutines compute their closed forms *)

Ltac exec_step :=
  unfold step, telegram_worker, handler, sleep_elapsed, delayed_offline;
  exec; rewrite ?broadcast_spec; simpl.

Lemma handler_ignores uid now event env s :
  classify uid event = None →
  handler uid now event env s = (Returned (), s, []).
Proof.
  unfold classify. destruct event as [u st|]; [|done].
  destruct st; exec_step; repeat case_decide; try done; congruence.
Qed.

Lemma foreign_classify uid event : foreign uid event → classify uid event = None.
Proof.
  destruct event as [u st|]; [|done]. simpl. intros Hne.
  destruct st; try done; case_decide; congruence.
Qed.

Lemma handler_online_again uid now event env s :
  classify uid event = Some BecameOnline →
  status (state s) = "ONLINE" →
  handler uid now event env s = (Returned (), drop_handle s, []).
Proof.
  unfold classify. destruct event as [u st|]; [|done].
  destruct st; try done; try (case_decide; done).
  case_decide; [|done]. intros _ Hst. subst u. exec_step.
  rewrite decide_False by tauto. unfold drop_handle.
  destruct (offline_task s) as [t|]; simpl;
    (rewrite decide_False; [done|]); unfold cancelled;
    repeat case_match; simpl; rewrite Hst; tauto.
Qed.

Lemma cancelled_fields t s :
  clients (cancelled t s) = clients s ∧ state (cancelled t s) = state s ∧
  online_since (cancelled t s) = online_since s ∧
  offline_task (cancelled t s) = offline_task s ∧
  user_id (cancelled t s) = user_id s.
Proof. unfold cancelled. repeat case_match; done. Qed.

Lemma drop_handle_fields s :
  clients (drop_handle s) = clients s ∧ state (drop_handle s) = state s ∧
  online_since (drop_handle s) = online_since s ∧
  offline_task (drop_handle s) = None ∧
  user_id (drop_handle s) = user_id s.
Proof.
  unfold drop_handle. destruct (offline_task s) as [t|] eqn:Ht; [|done].
  simpl. destruct (cancelled_fields t s) as (? & ? & ? & ? & ?). done.
Qed.

Lemma handler_online_new uid now event env s :
  classify uid event = Some BecameOnline →
  status (state s) ≠ "ONLINE" →
  handler uid now event env s =
  (Returned (), pruned env (go_online now (drop_handle s)),
   broadcast_log env (go_online now (drop_handle s))).
Proof.
  unfold classify. destruct event as [u st|]; [|done].
  destruct st; try done; try (case_decide; done).
  case_decide; [|done]. intros _ Hst. subst u. exec_step.
  rewrite decide_False by tauto.
  destruct (drop_handle_fields s) as (_ & Hd & _).
  unfold drop_handle in *.
  destruct (offline_task s) as [t|]; simpl in *;
    (rewrite decide_True by (rewrite ?Hd; done));
    rewrite broadcast_spec; reflexivity.
Qed.

Lemma handler_offline uid now event env s :
  classify uid event = Some BecameOffline →
  handler uid now event env s = (Returned (), armed now (disarmed s), []).
Proof.
  unfold classify. destruct event as [u st|]; [|done].
  destruct st; try done; try (case_decide; done).
  case_decide; [|done]. intros _. subst u. exec_step.
  rewrite decide_False by tauto. unfold disarmed.
  destruct (offline_task s) as [t|]; reflexivity.
Qed.

Lemma sleep_elapsed_fires now t wake_at env s :
  tasks s !! t = Some (Sleeping wake_at) → wake_at ≤ now →
  online_since s = None →
  sleep_elapsed now t env s =
  (Returned (), finished t (pruned env (confirm_offline now s)),
   broadcast_log env (confirm_offline now s)).
Proof.
  intros Ht Hw Ho. exec_step. rewrite Ht, decide_True by done.
  rewrite Ho. simpl. rewrite broadcast_spec. simpl.
  rewrite app_nil_r. reflexivity.
Qed.

Lemma sleep_elapsed_superseded now t wake_at since env s :
  tasks s !! t = Some (Sleeping wake_at) → wake_at ≤ now →
  online_since s = Some since →
  sleep_elapsed now t env s = (Returned (), finished t s, []).
Proof.
  intros Ht Hw Ho. exec_step. rewrite Ht, decide_True by done.
  rewrite Ho. reflexivity.
Qed.

Lemma sleep_elapsed_early now t wake_at env s :
  tasks s !! t = Some (Sleeping wake_at) → now < wake_at →
  sleep_elapsed now t env s = (Returned (), s, []).
Proof.
  intros Ht Hw. exec_step. rewrite Ht, decide_False by lia. reflexivity.
Qed.

Lemma sleep_elapsed_dead now t env s :
  ¬ live s t → sleep_elapsed now t env s = (Returned (), s, []).
Proof.
  intros Hl. exec_step. destruct (tasks s !! t) as [[w| |]|] eqn:Ht; try done.
  destruct Hl. by exists w.
Qed.

Lemma telegram_worker_spec now uid st env s :
  telegram_worker now uid st env s =
  (Returned (), with_user_id (Some uid) (pruned env (synced now st s)),
   broadcast_log env (synced now st s)).
Proof.
  destruct st as [| |[w|]| | |]; exec_step; rewrite ?app_nil_r; reflexivity.
Qed.

Lemma websocket_endpoint_spec ws env s :
  (websocket_endpoint ws env s).1.2 = with_clients ({[ws]} ∪ clients s) s ∧
  (websocket_endpoint ws env s).2 = [SendJson ws (state s) (bool_decide (ws ∉ env))].
Proof.
  exec. destruct (decide (ws ∈ env)); simpl.
  - rewrite bool_decide_eq_false_2 by tauto. done.
  - rewrite bool_decide_eq_true_2 by done. done.
Qed.

(** ** Every step is one of the transitions *)

Lemma step_effect i env s :
  effect env s i (step i env s).1.2 (step i env s).2.
Proof.
  destruct i as [now uid st|now event|now t|ws|ws].
  - unfold step. exec. destruct (user_id s) as [u|] eqn:Hu.
    + simpl. by apply effect_worker_running.
    + rewrite telegram_worker_spec. simpl. by apply effect_worker.
  - unfold step. exec. destruct (user_id s) as [u|] eqn:Hu.
    + destruct (classify u event) as [[|]|] eqn:Hc.
      * destruct (decide (status (state s) = "ONLINE")) as [Hs|Hs].
        -- rewrite (handler_online_again _ _ _ _ _ Hc Hs). simpl.
           by eapply effect_online_again.
        -- rewrite (handler_online_new _ _ _ _ _ Hc Hs). simpl.
           by eapply effect_online.
      * rewrite (handler_offline _ _ _ _ _ Hc). simpl.
        by eapply effect_offline.
      * rewrite (handler_ignores _ _ _ _ _ Hc). simpl.
        by eapply effect_ignored.
    + simpl. by apply effect_unregistered.
  - unfold step.
    destruct (tasks s !! t) as [[w| |]|] eqn:Ht;
      try (rewrite sleep_elapsed_dead by (intros [w' Hw']; congruence);
           simpl; apply effect_dead; intros [w' Hw']; congruence).
    destruct (decide (w ≤ now)) as [Hw|Hw].
    + destruct (online_since s) as [since|] eqn:Ho.
      * rewrite (sleep_elapsed_superseded _ _ _ _ _ _ Ht Hw Ho). simpl.
        by eapply effect_superseded.
      * rewrite (sleep_elapsed_fires _ _ _ _ _ Ht Hw Ho). simpl.
        by eapply effect_fires.
    + rewrite (sleep_elapsed_early _ _ _ _ _ Ht) by lia. simpl.
      eapply effect_early; [done|lia].
  - unfold step. destruct (websocket_endpoint_spec ws env s) as [-> ->].
    apply effect_connect.
  - unfold step. exec. apply effect_disconnect.
Qed.

(** ** Runs *)

Lemma run_cons env i rest s :
  run ((env, i) :: rest) s =
  ((run rest (step i env s).1.2).1,
   (step i env s).2 ++ (run rest (step i env s).1.2).2).
Proof.
  simpl. destruct (step i env s) as [[r s1] o1]. simpl.
  destruct (run rest s1) as [s2 o2]. reflexivity.
Qed.

Lemma run_app tr1 tr2 s :
  run (tr1 ++ tr2) s =
  ((run tr2 (run tr1 s).1).1, (run tr1 s).2 ++ (run tr2 (run tr1 s).1).2).
Proof.
  revert s. induction tr1 as [|[env i] tr1 IH]; intros s.
  - simpl. by destruct (run tr2 s).
  - rewrite <- app_comm_cons, !run_cons, IH. simpl. by rewrite app_assoc.
Qed.

(** A property kept by every transition is kept by every run. *)
Lemma run_invariant (P : sys → Prop) :
  (∀ env s i s' log, P s → effect env s i s' log → P s') →
  ∀ tr s, P s → P (run tr s).1.
Proof.
  intros Hstep tr. induction tr as [|[env i] tr IH]; intros s Hs; [done|].
  rewrite run_cons. simpl. apply IH. eapply Hstep; [exact Hs|apply step_effect].
Qed.

Lemma reachable_invariant (P : sys → Prop) :
  (∀ nm, P (initial nm)) →
  (∀ env s i s' log, P s → effect env s i s' log → P s') →
  ∀ s, reachable s → P s.
Proof.
  intros Hinit Hstep s (nm & tr & <-). by apply run_invariant.
Qed.

(** ** Logs *)

Lemma broadcasts_app l1 l2 : broadcasts (l1 ++ l2) = broadcasts l1 ++ broadcasts l2.
Proof. apply omap_app. Qed.

Lemma broadcasts_broadcast_log env s : broadcasts (broadcast_log env s) = [state s].
Proof.
  unfold broadcast_log, broadcasts. simpl. f_equal.
  induction (elements (clients s)) as [|ws l IH]; [done|]. simpl. exact IH.
Qed.

Lemma delivered_broadcast_log env s :
  delivered (broadcast_log env s) =
  map (λ ws, (ws, state s)) (List.filter (λ ws, bool_decide (ws ∉ env)) (elements (clients s))).
Proof.
  unfold broadcast_log, delivered. simpl.
  induction (elements (clients s)) as [|ws l IH]; [done|]. simpl.
  destruct (bool_decide (ws ∉ env)); simpl; by rewrite IH.
Qed.

(** ** Handles *)

Lemma live_cancelled t0 s t : live (cancelled t0 s) t ↔ live s t ∧ t ≠ t0.
Proof.
  unfold live, cancelled.
  destruct (tasks s !! t0) as [[w0| |]|] eqn:H0; simpl.
  - destruct (decide (t = t0)) as [->|Hne].
    + rewrite list_lookup_insert_eq by (by eapply lookup_lt_Some).
      split; [intros [w ?]; done|tauto].
    + rewrite list_lookup_insert_ne by done. tauto.
  - split; [|tauto]. intros [w Hw]. split; [by exists w|]. congruence.
  - split; [|tauto]. intros [w Hw]. split; [by exists w|]. congruence.
  - split; [|tauto]. intros [w Hw]. split; [by exists w|]. congruence.
Qed.

Lemma live_finished t0 s t : live (finished t0 s) t → live s t ∧ t ≠ t0.
Proof.
  unfold live, finished. simpl. intros [w Hw].
  destruct (decide (t = t0)) as [->|Hne].
  - destruct (decide (t0 < length (tasks s))%nat).
    + rewrite list_lookup_insert_eq in Hw by done. done.
    + rewrite list_insert_ge in Hw by lia.
      apply lookup_lt_Some in Hw. lia.
  - rewrite list_lookup_insert_ne in Hw by done. split; [by exists w|done].
Qed.

Lemma drop_handle_not_live s t : handle_inv s → ¬ live (drop_handle s) t.
Proof.
  unfold drop_handle. intros Hinv Hl.
  destruct (offline_task s) as [t0|] eqn:H0.
  - assert (live (cancelled t0 s) t) as Hc by exact Hl.
    apply live_cancelled in Hc as [Hc Hne]. apply Hinv in Hc. congruence.
  - apply Hinv in Hl. congruence.
Qed.

Lemma disarmed_not_live s t : handle_inv s → ¬ live (disarmed s) t.
Proof.
  unfold disarmed. intros Hinv Hl.
  destruct (offline_task s) as [t0|] eqn:H0.
  - apply live_cancelled in Hl as [Hc Hne].
    assert (live s t) as Hs by exact Hc. apply Hinv in Hs. congruence.
  - assert (live s t) as Hs by exact Hl. apply Hinv in Hs. congruence.
Qed.

Lemma live_armed now s t :
  live (armed now s) t ↔ live s t ∨ t = length (tasks s).
Proof.
  unfold live, armed. simpl. split.
  - intros [w Hw]. apply lookup_app_Some in Hw as [Hw|[Hlen Hw]].
    + left. by exists w.
    + right. apply lookup_lt_Some in Hw as Hlt. simpl in Hlt. lia.
  - intros [[w Hw]| ->].
    + exists w. by apply lookup_app_l_Some.
    + exists (now + OFFLINE_DELAY). rewrite lookup_app_r by lia.
      by rewrite Nat.sub_diag.
Qed.

Lemma handle_inv_ext s s' :
  tasks s' = tasks s → offline_task s' = offline_task s →
  handle_inv s → handle_inv s'.
Proof.
  unfold handle_inv, live. intros -> ->. done.
Qed.

Lemma synced_fields now st s :
  clients (synced now st s) = clients s ∧ tasks (synced now st s) = tasks s ∧
  offline_task (synced now st s) = offline_task s ∧
  user_id (synced now st s) = user_id s.
Proof. destruct st as [| |[w|]| | |]; done. Qed.

Lemma handle_inv_effect env s i s' log :
  handle_inv s → effect env s i s' log → handle_inv s'.
Proof.
  intros Hinv He. destruct He; try exact Hinv.
  - destruct (synced_fields now st s) as (_ & Ht & Ho & _).
    by apply (handle_inv_ext s).
  - intros t Hl. by apply drop_handle_not_live in Hl.
  - intros t Hl. by apply (drop_handle_not_live s t) in Hl.
  - intros t Hl. apply live_armed in Hl as [Hl| ->]; [|done].
    by apply disarmed_not_live in Hl.
  - intros t' Hl. apply live_finished in Hl as [Hl _]. by apply Hinv in Hl.
  - intros t' Hl. apply live_finished in Hl as [Hl _]. by apply Hinv in Hl.
Qed.

Lemma handle_inv_rearmed now s : handle_inv s → handle_inv (armed now (disarmed s)).
Proof.
  intros Hinv t Hl. apply live_armed in Hl as [Hl| ->]; [|done].
  by apply disarmed_not_live in Hl.
Qed.

Lemma handle_inv_run tr s : handle_inv s → handle_inv (run tr s).1.
Proof. apply (run_invariant handle_inv). intros. by eapply handle_inv_effect. Qed.

Lemma handle_inv_reachable s : reachable s → handle_inv s.
Proof.
  apply (reachable_invariant handle_inv).
  - intros nm t [w Hw]. done.
  - intros. by eapply handle_inv_effect.
Qed.

Lemma filter_sleeping_nil l :
  (∀ t w, l !! t ≠ Some (Sleeping w)) → List.filter is_sleeping l = [].
Proof.
  induction l as [|k l IH]; intros H; [done|]. simpl.
  destruct k as [w| |]; simpl.
  - by destruct (H 0%nat w).
  - apply IH. intros t w. apply (H (S t) w).
  - apply IH. intros t w. apply (H (S t) w).
Qed.

Lemma filter_sleeping_le_1 l :
  (∀ i j wi wj, l !! i = Some (Sleeping wi) → l !! j = Some (Sleeping wj) → i = j) →
  (length (List.filter is_sleeping l) ≤ 1)%nat.
Proof.
  induction l as [|k l IH]; intros H; [simpl; lia|]. simpl.
  destruct k as [w| |]; simpl.
  - rewrite filter_sleeping_nil; [simpl; lia|].
    intros t w' Ht. specialize (H 0%nat (S t) w w' eq_refl Ht). done.
  - apply IH. intros i j wi wj Hi Hj. specialize (H (S i) (S j) wi wj Hi Hj). lia.
  - apply IH. intros i j wi wj Hi Hj. specialize (H (S i) (S j) wi wj Hi Hj). lia.
Qed.

Lemma live_count_le_1 s : handle_inv s → (live_count s ≤ 1)%nat.
Proof.
  intros Hinv. apply filter_sleeping_le_1. intros i j wi wj Hi Hj.
  assert (offline_task s = Some i) as Ei by (apply Hinv; by exists wi).
  assert (offline_task s = Some j) as Ej by (apply Hinv; by exists wj).
  congruence.
Qed.

Lemma live_count_0 s : (∀ t, ¬ live s t) → live_count s = 0%nat.
Proof.
  intros H. unfold live_count. rewrite filter_sleeping_nil; [done|].
  intros t w Ht. apply (H t). by exists w.
Qed.

Lemma live_count_armed now s : live_count (armed now s) = S (live_count s).
Proof.
  unfold live_count, armed. simpl. rewrite List.filter_app, length_app. simpl. lia.
Qed.

(** * The claims *)

(** ** C1: an ONLINE event while the status is not ONLINE *)

(** C1, as stated, fails: the handler does not clear [last_seen]. After
    the identity was found offline with a last-seen time, an ONLINE event
    sets the status to ONLINE and the broadcast snapshot still carries
    that time, neither the ["--"] sentinel nor the empty string. *)
Lemma online_event_keeps_last_seen :
  let r := handler 7 (seconds 1700000100)
             (UpdateUserStatus 7 (UserStatusOnline (seconds 1700000400))) ∅ found_offline in
  status (state found_offline) ≠ "ONLINE" ∧
  status (state r.1.2) = "ONLINE" ∧
  last_seen (state r.1.2) = "2023-11-14 22:13:20" ∧
  last_seen (state r.1.2) ≠ "--" ∧
  last_seen (state r.1.2) ≠ EmptyString ∧
  broadcasts r.2 =
    [{| name := "User"; status := "ONLINE";
        last_seen := "2023-11-14 22:13:20"; duration := EmptyString |}].
Proof. vm_compute. repeat split; discriminate. Qed.

(** C1 (amended): on a 'became online' raw event for the tracked identity
    when the current status is not ONLINE, the handler sets status to
    ONLINE, sets [online_since] to the current time, sets [duration] to the
    empty string, leaves [last_seen] and [name] as they were, drops the
    debounce handle, and then broadcasts the resulting snapshot to the
    observers registered at that moment. *)
Theorem handler_online_transition uid now expires env s :
  status (state s) ≠ "ONLINE" →
  ∃ s',
    handler uid now (UpdateUserStatus uid (UserStatusOnline expires)) env s =
      (Returned (), s',
       BroadcastCall (state s') ::
       map (λ ws, SendJson ws (state s') (bool_decide (ws ∉ env)))
           (elements (clients s))) ∧
    status (state s') = "ONLINE" ∧
    online_since s' = Some now ∧
    duration (state s') = EmptyString ∧
    last_seen (state s') = last_seen (state s) ∧
    name (state s') = name (state s) ∧
    offline_task s' = None.
Proof.
  intros Hst. exists (pruned env (go_online now (drop_handle s))). split.
  - rewrite handler_online_new; [|simpl; by rewrite decide_True|done].
    unfold broadcast_log, pruned, go_online. simpl.
    destruct (drop_handle_fields s) as (-> & _). reflexivity.
  - destruct (drop_handle_fields s) as (_ & Hd & _ & Ho & _). simpl.
    rewrite Hd, Ho. done.
Qed.

(** [handler_online_transition] on the state found offline, observer 2 broken. *)
Lemma handler_online_transition_witness :
  status (state found_offline) ≠ "ONLINE" ∧
  ∃ s',
    handler 7 (seconds 1700000100)
      (UpdateUserStatus 7 (UserStatusOnline (seconds 1700000400))) {[2%nat]} found_offline =
      (Returned (), s',
       BroadcastCall (state s') ::
       map (λ ws, SendJson ws (state s') (bool_decide (ws ∉ ({[2%nat]} : gset nat))))
           (elements (clients found_offline))) ∧
    status (state s') = "ONLINE" ∧
    online_since s' = Some (seconds 1700000100) ∧
    duration (state s') = EmptyString ∧
    last_seen (state s') = last_seen (state found_offline) ∧
    name (state s') = name (state found_offline) ∧
    offline_task s' = None.
Proof.
  split; [vm_compute; discriminate|].
  apply (handler_online_transition 7 (seconds 1700000100) (seconds 1700000400)
           {[2%nat]} found_offline).
  vm_compute; discriminate.
Defined.

(** ** C4: an ONLINE event while the status is already ONLINE *)

(** C4: on a 'became online' raw event for the tracked identity when the
    status is already ONLINE, the handler cancels the pending debounce
    handle (it is no longer live and [offline_task] is reset) and does
    nothing further: it returns with an empty log, and the snapshot,
    [online_since] and the observers are unchanged. Hence, from any state,
    the second of two consecutive ONLINE events sends no broadcast. *)
Theorem handler_online_when_online uid now expires env s :
  (status (state s) = "ONLINE" →
   ∃ s',
     handler uid now (UpdateUserStatus uid (UserStatusOnline expires)) env s =
       (Returned (), s', []) ∧
     state s' = state s ∧
     online_since s' = online_since s ∧
     clients s' = clients s ∧
     offline_task s' = None ∧
     (∀ t, offline_task s = Some t → ¬ live s' t)) ∧
  (∀ now2 expires2 env2,
     let s1 := (handler uid now (UpdateUserStatus uid (UserStatusOnline expires)) env s).1.2 in
     (handler uid now2 (UpdateUserStatus uid (UserStatusOnline expires2)) env2 s1).2 = []).
Proof.
  assert (classify uid (UpdateUserStatus uid (UserStatusOnline expires)) = Some BecameOnline)
    as Hc by (simpl; by rewrite decide_True).
  split.
  - intros Hst. exists (drop_handle s). split; [by apply handler_online_again|].
    destruct (drop_handle_fields s) as (Hcl & Hd & Hos & Ho & _).
    repeat split; try done.
    intros t Ht Hl. unfold drop_handle in Hl. rewrite Ht in Hl.
    assert (live (cancelled t s) t) as Hl' by exact Hl.
    apply live_cancelled in Hl' as [_ Hne]. done.
  - intros now2 expires2 env2 s1.
    assert (status (state s1) = "ONLINE") as Hs1.
    { subst s1. destruct (decide (status (state s) = "ONLINE")) as [Hs|Hs].
      - rewrite (handler_online_again _ _ _ _ _ Hc Hs). simpl.
        destruct (drop_handle_fields s) as (_ & -> & _). done.
      - rewrite (handler_online_new _ _ _ _ _ Hc Hs). done. }
    rewrite handler_online_again; [done| |done].
    simpl; by rewrite decide_True.
Qed.

(** [handler_online_when_online] on the state found online. *)
Lemma handler_online_when_online_witness :
  status (state found_online) = "ONLINE" ∧
  ∃ s',
    handler 7 (seconds 10) (UpdateUserStatus 7 (UserStatusOnline (seconds 310))) ∅ found_online =
      (Returned (), s', []) ∧
    state s' = state found_online ∧
    online_since s' = online_since found_online ∧
    clients s' = clients found_online ∧
    offline_task s' = None ∧
    (∀ t, offline_task found_online = Some t → ¬ live s' t).
Proof.
  split; [vm_compute; reflexivity|].
  apply (proj1 (handler_online_when_online 7 (seconds 10) (seconds 310) ∅ found_online)).
  vm_compute; reflexivity.
Defined.

(** ** C9: events that are not about the tracked identity *)

(** C9: a raw event that is not a user-status update, or that concerns an
    identity other than the tracked one, is ignored without side effects:
    the handler returns, the whole state (snapshot, [online_since],
    debounce handle, tasks, observers) is unchanged, and nothing is sent. *)
Theorem handler_ignores_foreign uid now event env s :
  foreign uid event →
  handler uid now event env s = (Returned (), s, []).
Proof. intros Hf. apply handler_ignores. by apply foreign_classify. Qed.

(** [handler_ignores_foreign] on an offline report about identity 8. *)
Lemma handler_ignores_foreign_witness :
  foreign 7 (UpdateUserStatus 8 (UserStatusOffline (Some (seconds 5)))) ∧
  handler 7 (seconds 20) (UpdateUserStatus 8 (UserStatusOffline (Some (seconds 5)))) ∅ found_online =
    (Returned (), found_online, []).
Proof.
  split; [simpl; lia|].
  apply (handler_ignores_foreign 7 (seconds 20) _ ∅ found_online). simpl; lia.
Defined.

(** ** C6: [broadcast] *)

(** C6: for every set of registered observers and every set of broken
    websockets, [broadcast] returns normally (it never raises), removes
    exactly the registered observers whose send failed, delivers the
    current snapshot exactly once to every other registered observer, and
    changes nothing else. *)
Theorem broadcast_isolates_failures env s :
  ∃ s' log,
    broadcast env s = (Returned (), s', log) ∧
    (∀ ws, ws ∈ clients s' ↔ ws ∈ clients s ∧ ws ∉ env) ∧
    (∀ ws d, (ws, d) ∈ delivered log ↔ d = state s ∧ ws ∈ clients s ∧ ws ∉ env) ∧
    NoDup (delivered log) ∧
    s' = with_clients (clients s') s.
Proof.
  exists (pruned env s), (broadcast_log env s).
  split; [apply broadcast_spec|]. split; [|split; [|split]].
  - intros ws. unfold pruned. simpl. set_solver.
  - intros ws d. rewrite delivered_broadcast_log, list_elem_of_fmap. split.
    + intros (ws' & [= -> ->] & Hin). apply list_elem_of_In, filter_In in Hin as [Hin Hok].
      apply list_elem_of_In, elem_of_elements in Hin.
      apply bool_decide_eq_true_1 in Hok. done.
    + intros (-> & Hin & Hok). exists ws. split; [done|].
      apply list_elem_of_In, filter_In. split.
      * by apply list_elem_of_In, elem_of_elements.
      * by apply bool_decide_eq_true_2.
  - rewrite delivered_broadcast_log. apply NoDup_fmap_2.
    + intros x y [= ->]. done.
    + apply NoDup_ListNoDup, List.NoDup_filter, NoDup_ListNoDup, NoDup_elements.
  - done.
Qed.

(** ** C7: registration of an observer *)

(** C7: whatever the state, [websocket_endpoint] adds the new observer to
    [clients], changes nothing else, and in the same step calls
    [send_json] on it, once, with the snapshot stored at that moment; the
    snapshot is delivered unless the websocket is broken, in which case
    the exception leaves the coroutine. No presence event is involved. *)
Theorem websocket_endpoint_sends_snapshot ws env s :
  (websocket_endpoint ws env s).1.2 = with_clients ({[ws]} ∪ clients s) s ∧
  ws ∈ clients (websocket_endpoint ws env s).1.2 ∧
  (websocket_endpoint ws env s).2 =
    [SendJson ws (state s) (bool_decide (ws ∉ env))] ∧
  delivered (websocket_endpoint ws env s).2 =
    (if decide (ws ∈ env) then [] else [(ws, state s)]) ∧
  (websocket_endpoint ws env s).1.1 =
    (if decide (ws ∈ env) then Raised RuntimeError else Returned ()).
Proof.
  destruct (websocket_endpoint_spec ws env s) as [Hs Hl].
  rewrite Hs, Hl. repeat split.
  - simpl. set_solver.
  - destruct (decide (ws ∈ env)).
    + rewrite bool_decide_eq_false_2 by tauto. done.
    + rewrite bool_decide_eq_true_2 by done. done.
  - exec. by destruct (decide (ws ∈ env)).
Qed.

(** ** C8: the values of [status] *)

Lemma status_effect env s i s' log :
  effect env s i s' log →
  status (state s') = status (state s) ∨
  status (state s') = "ONLINE" ∨ status (state s') = "OFFLINE".
Proof.
  intros He. destruct He; auto.
  - destruct st as [| |[w|]| | |]; simpl; auto.
  - left. by destruct (drop_handle_fields s) as (_ & -> & _).
  - left. simpl. unfold disarmed.
    destruct (offline_task s) as [t|]; [|done].
    by destruct (cancelled_fields t (with_online_since None s)) as (_ & -> & _).
Qed.

Lemma status_defined_effect env s i s' log :
  status (state s) ∈ ["CONNECTING"; "ONLINE"; "OFFLINE"] →
  effect env s i s' log →
  status (state s') ∈ ["CONNECTING"; "ONLINE"; "OFFLINE"].
Proof.
  intros Hs He. destruct (status_effect _ _ _ _ _ He) as [->|[->| ->]]; [done|..];
    repeat constructor.
Qed.

Lemma status_decided_effect env s i s' log :
  status (state s) ≠ "CONNECTING" →
  effect env s i s' log →
  status (state s') ≠ "CONNECTING".
Proof.
  intros Hs He. destruct (status_effect _ _ _ _ _ He) as [->|[->| ->]]; done.
Qed.

Lemma resolved_effect env s i s' log :
  (is_Some (user_id s) → status (state s) ≠ "CONNECTING") →
  effect env s i s' log →
  is_Some (user_id s') → status (state s') ≠ "CONNECTING".
Proof.
  intros Hs He Hu'.
  assert (is_Some (user_id s) ∨ ∃ now uid st, i = WorkerStarts now uid st ∧
          s' = with_user_id (Some uid) (pruned env (synced now st s))) as [Hu|Hw].
  { destruct He; try (by left); try (left; by eexists).
    right. by exists now, uid, st. }
  - eapply status_decided_effect; [by apply Hs|exact He].
  - destruct Hw as (now & uid & st & -> & ->).
    destruct st as [| |[w|]| | |]; done.
Qed.

(** C8: for every sequence of inputs run from the initial state, [status]
    holds one of CONNECTING, ONLINE, OFFLINE; it differs from CONNECTING
    as soon as the identity is resolved; and once it differs from
    CONNECTING it differs from CONNECTING after every further run. *)
Theorem status_values TARGET_NAME tr tr' :
  let s := (run tr (initial TARGET_NAME)).1 in
  status (state s) ∈ ["CONNECTING"; "ONLINE"; "OFFLINE"] ∧
  (is_Some (user_id s) → status (state s) ≠ "CONNECTING") ∧
  (status (state s) ≠ "CONNECTING" →
   status (state (run tr' s).1) ≠ "CONNECTING").
Proof.
  intros s. split; [|split].
  - apply (run_invariant (λ s, status (state s) ∈ ["CONNECTING"; "ONLINE"; "OFFLINE"])).
    + intros. by eapply status_defined_effect.
    + repeat constructor.
  - apply (run_invariant (λ s, is_Some (user_id s) → status (state s) ≠ "CONNECTING")).
    + intros. by eapply resolved_effect.
    + by intros [u Hu].
  - apply (run_invariant (λ s, status (state s) ≠ "CONNECTING")).
    intros. by eapply status_decided_effect.
Qed.

(** [status_values] after the identity was found with a hidden status. *)
Lemma status_values_witness :
  let s := (run [(∅, WorkerStarts 0 7 UserStatusRecently)] (initial "User")).1 in
  status (state s) ≠ "CONNECTING" ∧
  status (state (run [(∅, RawEvent (seconds 5)
                            (UpdateUserStatus 7 (UserStatusOnline (seconds 305))))] s).1) ≠ "CONNECTING".
Proof.
  split; [vm_compute; discriminate|].
  apply (proj2 (proj2 (status_values "User" [(∅, WorkerStarts 0 7 UserStatusRecently)]
                         [(∅, RawEvent (seconds 5)
                                 (UpdateUserStatus 7 (UserStatusOnline (seconds 305))))]))).
  vm_compute; discriminate.
Defined.

(** ** C5: at most one live handle *)

(** C5: in every reachable state at most one debounce handle is live. A
    'became offline' event first cancels the existing handle (no handle is
    live in between) and then installs the new one, which is then the only
    live handle and the one [offline_task] refers to; a 'became online'
    event leaves no live handle, whatever the status. *)
Theorem at_most_one_live_handle s :
  reachable s →
  (live_count s ≤ 1)%nat ∧
  (∀ uid now was env,
     let s' := (handler uid now (UpdateUserStatus uid (UserStatusOffline was)) env s).1.2 in
     live_count (disarmed s) = 0%nat ∧
     s' = armed now (disarmed s) ∧
     live_count s' = 1%nat ∧
     offline_task s' = Some (length (tasks s)) ∧
     tasks s' !! length (tasks s) = Some (Sleeping (now + OFFLINE_DELAY))) ∧
  (∀ uid now expires env,
     live_count (handler uid now (UpdateUserStatus uid (UserStatusOnline expires)) env s).1.2 = 0%nat).
Proof.
  intros Hr. apply handle_inv_reachable in Hr as Hinv. split; [|split].
  - by apply live_count_le_1.
  - intros uid now was env s'.
    assert (live_count (disarmed s) = 0%nat) as H0
      by (apply live_count_0; intros t; by apply disarmed_not_live).
    assert (length (tasks (disarmed s)) = length (tasks s)) as Hlen.
    { unfold disarmed, cancelled. repeat case_match; simpl; by rewrite ?length_insert. }
    subst s'. rewrite handler_offline by (simpl; by rewrite decide_True). simpl.
    split; [done|]. split; [done|]. split; [by rewrite live_count_armed, H0|].
    rewrite Hlen. split; [done|].
    rewrite lookup_app_r by lia. by rewrite Hlen, Nat.sub_diag.
  - intros uid now expires env.
    assert (classify uid (UpdateUserStatus uid (UserStatusOnline expires)) = Some BecameOnline)
      as Hc by (simpl; by rewrite decide_True).
    apply live_count_0. intros t.
    destruct (decide (status (state s) = "ONLINE")) as [Hs|Hs].
    + rewrite (handler_online_again _ _ _ _ _ Hc Hs). simpl.
      by apply drop_handle_not_live.
    + rewrite (handler_online_new _ _ _ _ _ Hc Hs). simpl.
      by apply (drop_handle_not_live s t).
Qed.

Lemma reachable_pending_offline : reachable pending_offline.
Proof.
  exists "User",
    [(∅, WsConnect 1%nat); (∅, WorkerStarts 0 7 (UserStatusOnline (seconds 300)));
     (∅, RawEvent (seconds 5)
           (UpdateUserStatus 7 (UserStatusOffline (Some (seconds 5)))))].
  vm_compute. reflexivity.
Qed.

(** [at_most_one_live_handle] on a state with a pending handle. *)
Lemma at_most_one_live_handle_witness :
  reachable pending_offline ∧
  (live_count pending_offline ≤ 1)%nat ∧
  (∀ uid now expires env,
     live_count (handler uid now (UpdateUserStatus uid (UserStatusOnline expires)) env
                   pending_offline).1.2 = 0%nat).
Proof.
  split; [exact reachable_pending_offline|].
  destruct (at_most_one_live_handle pending_offline reachable_pending_offline)
    as (H1 & _ & H3).
  split; [exact H1|exact H3].
Defined.

(** ** C2: flicker suppression *)

Lemma sleeping_cancelled t0 s t w :
  tasks (cancelled t0 s) !! t = Some (Sleeping w) →
  tasks s !! t = Some (Sleeping w).
Proof.
  unfold cancelled. destruct (tasks s !! t0) as [[w0| |]|] eqn:H0; simpl; try done.
  destruct (decide (t = t0)) as [->|Hne].
  - rewrite list_lookup_insert_eq by (by eapply lookup_lt_Some). done.
  - by rewrite list_lookup_insert_ne.
Qed.

Lemma sleeping_drop_handle s t w :
  tasks (drop_handle s) !! t = Some (Sleeping w) →
  tasks s !! t = Some (Sleeping w).
Proof.
  unfold drop_handle. destruct (offline_task s) as [t0|]; [|done].
  simpl. intros H. by apply sleeping_cancelled in H.
Qed.

Lemma sleeping_disarmed s t w :
  tasks (disarmed s) !! t = Some (Sleeping w) →
  tasks s !! t = Some (Sleeping w).
Proof.
  unfold disarmed. destruct (offline_task s) as [t0|]; [|done].
  intros H. by apply sleeping_cancelled in H.
Qed.

Lemma sleeping_armed now s t w :
  tasks (armed now s) !! t = Some (Sleeping w) →
  tasks s !! t = Some (Sleeping w) ∨
  (t = length (tasks s) ∧ w = now + OFFLINE_DELAY).
Proof.
  unfold armed. simpl. intros H.
  apply lookup_app_Some in H as [H|[Hlen H]]; [by left|right].
  destruct (t - length (tasks s))%nat as [|n] eqn:Hn; [|done].
  simpl in H. split; [lia|congruence].
Qed.

Lemma sleeping_finished t0 s t w :
  tasks (finished t0 s) !! t = Some (Sleeping w) →
  tasks s !! t = Some (Sleeping w) ∧ t ≠ t0.
Proof.
  unfold finished. simpl. intros H.
  destruct (decide (t = t0)) as [->|Hne].
  - destruct (decide (t0 < length (tasks s))%nat).
    + rewrite list_lookup_insert_eq in H by done. done.
    + rewrite list_insert_ge in H by lia. apply lookup_lt_Some in H. lia.
  - by rewrite list_lookup_insert_ne in H.
Qed.

Lemma disarmed_fields s :
  clients (disarmed s) = clients s ∧ state (disarmed s) = state s ∧
  online_since (disarmed s) = None ∧
  offline_task (disarmed s) = offline_task s ∧
  user_id (disarmed s) = user_id s ∧
  length (tasks (disarmed s)) = length (tasks s).
Proof.
  unfold disarmed, cancelled. repeat case_match; simpl; rewrite ?length_insert; done.
Qed.

Lemma flicker_summary_trans s s1 s2 sent1 sent2 :
  flicker_summary s s1 sent1 → flicker_summary s1 s2 sent2 →
  flicker_summary s s2 (sent1 ++ sent2).
Proof.
  intros [[-> E1]|(N1 & E1 & d1 & -> & D1)] [[-> E2]|(N2 & E2 & d2 & -> & D2)].
  - left. split; [done|congruence].
  - right. split; [congruence|]. split; [done|]. by exists d2.
  - right. split; [done|]. split; [congruence|]. by exists d1.
  - congruence.
Qed.

Lemma window_effect uid t1 env s i s' log :
  window_inv uid t1 s → in_window t1 i → effect env s i s' log →
  window_inv uid t1 s' ∧ flicker_summary s s' (broadcasts log).
Proof.
  intros [Hu Hw] Hi He. unfold in_window, OFFLINE_DELAY in *.
  destruct He; simpl in Hi; try (split; [by split|by left]).
  - congruence.
  - destruct (drop_handle_fields s) as (_ & Hd & _ & _ & Hid). split.
    + split; [congruence|]. intros t w Hs. apply sleeping_drop_handle in Hs. eauto.
    + left. by rewrite Hd.
  - destruct (drop_handle_fields s) as (_ & Hd & _ & _ & Hid). split.
    + split; [simpl; congruence|]. intros t w Hs.
      assert (tasks (drop_handle s) !! t = Some (Sleeping w)) as Hs' by exact Hs.
      apply sleeping_drop_handle in Hs'. eauto.
    + right. rewrite broadcasts_broadcast_log. split; [done|]. split; [done|].
      eexists. split; [done|]. done.
  - destruct (disarmed_fields s) as (_ & Hd & _ & _ & Hid & _). split.
    + split; [simpl; congruence|]. intros t w Hs.
      apply sleeping_armed in Hs as [Hs|[_ ->]].
      * apply sleeping_disarmed in Hs. eauto.
      * unfold OFFLINE_DELAY. lia.
    + left. split; [done|]. simpl. by rewrite Hd.
  - match goal with Hs : tasks s !! _ = Some _ |- _ => apply Hw in Hs end. lia.
  - match goal with Hs : tasks s !! _ = Some _ |- _ => apply Hw in Hs end. lia.
Qed.

Lemma window_run uid t1 tr s :
  window_inv uid t1 s → Forall (λ ei, in_window t1 ei.2) tr →
  window_inv uid t1 (run tr s).1 ∧
  flicker_summary s (run tr s).1 (broadcasts (run tr s).2).
Proof.
  revert s. induction tr as [|[env i] tr IH]; intros s Hinv Hall.
  - split; [done|]. by left.
  - apply Forall_cons in Hall as [Hi Hall]. rewrite run_cons. simpl.
    destruct (window_effect uid t1 env s i _ _ Hinv Hi (step_effect i env s)) as [Hinv1 Hsum1].
    destruct (IH _ Hinv1 Hall) as [Hinv2 Hsum2].
    split; [done|]. rewrite broadcasts_app. by eapply flicker_summary_trans.
Qed.

Lemma online_effect_status uid now expires env s s' log :
  user_id s = Some uid →
  effect env s (RawEvent now (UpdateUserStatus uid (UserStatusOnline expires))) s' log →
  status (state s') = "ONLINE".
Proof.
  intros Hu He.
  assert (classify uid (UpdateUserStatus uid (UserStatusOnline expires)) = Some BecameOnline)
    as Hc by (simpl; by rewrite decide_True).
  inversion He; subst; simplify_eq.
  - by destruct (drop_handle_fields s) as (_ & -> & _).
  - done.
Qed.

Lemma settled_effect uid env s i s' log :
  settled_inv uid s → no_offline_report uid i → effect env s i s' log →
  settled_inv uid s' ∧ broadcasts log = [].
Proof.
  intros (Hu & Hst & Hl) Hi He.
  destruct He; simpl in Hi; try (split; [by repeat split|done]); try congruence.
  - destruct (drop_handle_fields s) as (_ & Hd & _ & _ & Hid). split; [|done].
    split; [congruence|]. split; [by rewrite Hd|].
    intros t [w Hw]. apply sleeping_drop_handle in Hw. apply (Hl t). by exists w.
  - destruct (Hl t). by eexists.
  - destruct (Hl t). by eexists.
Qed.

Lemma settled_run uid tr s :
  settled_inv uid s → Forall (λ ei, no_offline_report uid ei.2) tr →
  settled_inv uid (run tr s).1 ∧ broadcasts (run tr s).2 = [].
Proof.
  revert s. induction tr as [|[env i] tr IH]; intros s Hinv Hall; [done|].
  apply Forall_cons in Hall as [Hi Hall]. rewrite run_cons. simpl.
  destruct (settled_effect uid env s i _ _ Hinv Hi (step_effect i env s)) as [Hinv1 Hb1].
  destruct (IH _ Hinv1 Hall) as [Hinv2 Hb2].
  split; [done|]. by rewrite broadcasts_app, Hb1, Hb2.
Qed.

Lemma online_effect_settles uid now expires env s s' log :
  handle_inv s → user_id s = Some uid →
  effect env s (RawEvent now (UpdateUserStatus uid (UserStatusOnline expires))) s' log →
  settled_inv uid s'.
Proof.
  intros Hinv Hu He.
  pose proof (online_effect_status _ _ _ _ _ _ _ Hu He) as Hst.
  assert (classify uid (UpdateUserStatus uid (UserStatusOnline expires)) = Some BecameOnline)
    as Hc by (simpl; by rewrite decide_True).
  destruct (drop_handle_fields s) as (_ & _ & _ & _ & Hid).
  inversion He; subst; simplify_eq.
  - split; [congruence|]. split; [done|]. intros t. by apply drop_handle_not_live.
  - split; [simpl; congruence|]. split; [done|].
    intros t Hl. by apply (drop_handle_not_live s t) in Hl.
Qed.

(** C2: from a reachable state in which the handler tracks [uid], take a
    'became offline' event at [t1], then any inputs (raw events,
    wake-ups, connections) at times in [t1, t1 + 40 s), then a 'became
    online' event at [t2 < t1 + 40 s], then any inputs whatever, at any
    later or earlier time, including the wake-up of every task long after
    its delay, as long as no new 'became offline' event of the tracked
    identity opens another episode. Over that whole run no broadcast
    carries status OFFLINE, ever; if the status was ONLINE before, no
    broadcast is sent at all; otherwise exactly one broadcast is sent,
    and it carries status ONLINE. *)
Theorem flicker_suppressed uid t1 t2 was expires env1 env2 mid tail s :
  reachable s → user_id s = Some uid →
  Forall (λ ei, in_window t1 ei.2) mid →
  t1 ≤ t2 < t1 + OFFLINE_DELAY →
  Forall (λ ei, no_offline_report uid ei.2) tail →
  let tr := (env1, RawEvent t1 (UpdateUserStatus uid (UserStatusOffline was))) ::
            mid ++
            (env2, RawEvent t2 (UpdateUserStatus uid (UserStatusOnline expires))) ::
            tail in
  let sent := broadcasts (run tr s).2 in
  Forall (λ d, status d ≠ "OFFLINE") sent ∧
  (status (state s) = "ONLINE" → sent = []) ∧
  (status (state s) ≠ "ONLINE" → ∃ d, sent = [d] ∧ status d = "ONLINE").
Proof.
  intros Hr Hu Hmid Ht2 Htail tr sent.
  apply handle_inv_reachable in Hr as Hinv.
  set (offline := UpdateUserStatus uid (UserStatusOffline was)) in *.
  set (online := UpdateUserStatus uid (UserStatusOnline expires)) in *.
  set (s1 := armed t1 (disarmed s)).
  destruct (disarmed_fields s) as (_ & Hd & _ & _ & Hid & _).
  assert (step (RawEvent t1 offline) env1 s = (Returned (), s1, [])) as Hstep1.
  { unfold step. exec. rewrite Hu.
    rewrite handler_offline by (simpl; by rewrite decide_True). done. }
  assert (window_inv uid t1 s1) as Hinv1.
  { split; [simpl; congruence|]. intros t w H.
    apply sleeping_armed in H as [H|[_ ->]]; [|lia].
    destruct (disarmed_not_live s t Hinv). by exists w. }
  assert (handle_inv s1) as Hh1 by (by apply handle_inv_rearmed).
  assert (status (state s1) = status (state s)) as Hst1 by (simpl; by rewrite Hd).
  destruct (window_run uid t1 mid s1 Hinv1 Hmid) as [[Hu2 Hw2] Hsum2].
  pose proof (handle_inv_run mid s1 Hh1) as Hh2.
  set (s2 := (run mid s1).1) in *.
  pose proof (step_effect (RawEvent t2 online) env2 s2) as He3.
  assert (in_window t1 (RawEvent t2 online)) as Hi3 by exact Ht2.
  destruct (window_effect uid t1 env2 s2 _ _ _ (conj Hu2 Hw2) Hi3 He3) as [_ Hsum3].
  pose proof (online_effect_status _ _ _ _ _ _ _ Hu2 He3) as Hfinal.
  pose proof (online_effect_settles _ _ _ _ _ _ _ Hh2 Hu2 He3) as Hset3.
  destruct (settled_run uid tail _ Hset3 Htail) as [_ Htl].
  pose proof (flicker_summary_trans _ _ _ _ _ Hsum2 Hsum3) as Hsum.
  assert (sent = broadcasts (run mid s1).2 ++
                 broadcasts (step (RawEvent t2 online) env2 s2).2) as Hsent.
  { subst sent tr. rewrite run_cons, Hstep1. cbn [fst snd app].
    rewrite run_app, run_cons. cbn [fst snd]. fold s2.
    by rewrite !broadcasts_app, Htl, app_nil_r. }
  rewrite <- Hsent in Hsum. clearbody sent.
  destruct Hsum as [[-> E]|(N & E & d & -> & D)].
  - split; [constructor|]. split; [done|]. intros Hne. congruence.
  - split; [repeat constructor; by rewrite D|]. split; [congruence|].
    intros _. by exists d.
Qed.

Lemma reachable_found_offline : reachable found_offline.
Proof.
  exists "User", found_offline_trace. reflexivity.
Qed.

Lemma reachable_found_online : reachable found_online.
Proof.
  exists "User", [(∅, WsConnect 1%nat); (∅, WorkerStarts 0 7 (UserStatusOnline (seconds 300)))].
  reflexivity.
Qed.

Lemma flicker_mid_in_window :
  Forall (λ ei : gset nat * input, in_window flicker_start ei.2) flicker_mid.
Proof.
  repeat constructor;
    unfold in_window, flicker_start, OFFLINE_DELAY, seconds; simpl; lia.
Qed.

Lemma flicker_tail_opens_no_episode :
  Forall (λ ei : gset nat * input, no_offline_report 7 ei.2) flicker_tail.
Proof. repeat constructor; simpl; discriminate. Qed.

(** [flicker_suppressed] on a flicker that starts at 1700000100.3 s and
    ends 39.95 s later, followed by the wake-ups of both tasks once their
    delays have elapsed: met while the status is ONLINE it sends nothing,
    met while the status is OFFLINE it sends one ONLINE broadcast. *)
Lemma flicker_suppressed_witness :
  reachable found_online ∧ user_id found_online = Some 7 ∧
  reachable found_offline ∧ user_id found_offline = Some 7 ∧
  Forall (λ ei : gset nat * input, in_window flicker_start ei.2) flicker_mid ∧
  flicker_start ≤ flicker_end < flicker_start + OFFLINE_DELAY ∧
  Forall (λ ei : gset nat * input, no_offline_report 7 ei.2) flicker_tail ∧
  status (state found_online) = "ONLINE" ∧
  status (state found_offline) ≠ "ONLINE" ∧
  let tr := ({[2%nat]}, RawEvent flicker_start (UpdateUserStatus 7 (UserStatusOffline None))) ::
            flicker_mid ++
            ({[2%nat]}, RawEvent flicker_end
                          (UpdateUserStatus 7 (UserStatusOnline (seconds 1700000440)))) ::
            flicker_tail in
  broadcasts (run tr found_online).2 = [] ∧
  Forall (λ d, status d ≠ "OFFLINE") (broadcasts (run tr found_offline).2) ∧
  ∃ d, broadcasts (run tr found_offline).2 = [d] ∧ status d = "ONLINE".
Proof.
  assert (flicker_start ≤ flicker_end < flicker_start + OFFLINE_DELAY) as Ht
    by (unfold flicker_end, flicker_start, OFFLINE_DELAY, seconds; lia).
  assert (status (state found_online) = "ONLINE") as Hon by reflexivity.
  assert (status (state found_offline) ≠ "ONLINE") as Hoff by (vm_compute; discriminate).
  split; [exact reachable_found_online|]. split; [reflexivity|].
  split; [exact reachable_found_offline|]. split; [reflexivity|].
  split; [exact flicker_mid_in_window|].
  split; [exact Ht|].
  split; [exact flicker_tail_opens_no_episode|].
  split; [exact Hon|]. split; [exact Hoff|].
  destruct (flicker_suppressed 7 flicker_start flicker_end None (seconds 1700000440)
              {[2%nat]} {[2%nat]} flicker_mid flicker_tail found_online
              reachable_found_online eq_refl flicker_mid_in_window Ht
              flicker_tail_opens_no_episode)
    as (_ & H2 & _).
  destruct (flicker_suppressed 7 flicker_start flicker_end None (seconds 1700000440)
              {[2%nat]} {[2%nat]} flicker_mid flicker_tail found_offline
              reachable_found_offline eq_refl flicker_mid_in_window Ht
              flicker_tail_opens_no_episode)
    as (H1 & _ & H3).
  split; [exact (H2 Hon)|]. split; [exact H1|exact (H3 Hoff)].
Defined.

(** ** C3: confirmed offline *)







(** ** C10: repeated OFFLINE broadcasts *)

(** C10: there is a reachable state whose status is already OFFLINE, and
    whose last broadcast carried OFFLINE, from which a further 'became
    offline' event followed by the wake-up of its timer 40 seconds later
    sends one more broadcast with status OFFLINE and a fresh [last_seen];
    both observers receive that second OFFLINE snapshot. *)
Theorem repeated_offline_broadcast :
  ∃ s d0 d,
    s = (run found_offline_trace (initial "User")).1 ∧
    reachable s ∧
    status (state s) = "OFFLINE" ∧
    broadcasts (run found_offline_trace (initial "User")).2 = [d0] ∧
    broadcasts (run (offline_again s) s).2 = [d] ∧
    status d0 = "OFFLINE" ∧ status d = "OFFLINE" ∧
    last_seen d0 = "2023-11-14 22:13:20" ∧
    last_seen d = "2023-11-14 22:15:40" ∧
    delivered (run (offline_again s) s).2 = [(2%nat, d); (1%nat, d)].
Proof.
  exists found_offline.
  exists {| name := "User"; status := "OFFLINE";
            last_seen := "2023-11-14 22:13:20"; duration := EmptyString |}.
  exists {| name := "User"; status := "OFFLINE";
            last_seen := "2023-11-14 22:15:40"; duration := EmptyString |}.
  split; [reflexivity|]. split; [exact reachable_found_offline|].
  by vm_compute.
Qed.

(** * Further properties of the code *)

(** ** The initial status sync of [telegram_worker] *)

(** X1: when the resolved user is online, the initial sync sets the
    status to ONLINE and [online_since] to the current time, empties
    [duration], leaves [last_seen] as it was, broadcasts that snapshot
    once to the observers registered at that moment, drops those whose
    send fails, and only then registers the handler for the user's id. *)
Theorem initial_sync_online now uid expires env s :
  ∃ s',
    telegram_worker now uid (UserStatusOnline expires) env s =
      (Returned (), s',
       BroadcastCall (state s') ::
       map (λ ws, SendJson ws (state s') (bool_decide (ws ∉ env)))
           (elements (clients s))) ∧
    status (state s') = "ONLINE" ∧
    online_since s' = Some now ∧
    duration (state s') = EmptyString ∧
    last_seen (state s') = last_seen (state s) ∧
    name (state s') = name (state s) ∧
    clients s' = clients s ∖ env ∧
    user_id s' = Some uid ∧
    tasks s' = tasks s ∧ offline_task s' = offline_task s.
Proof.
  exists (with_user_id (Some uid) (pruned env (synced now (UserStatusOnline expires) s))).
  split; [by rewrite telegram_worker_spec|]. done.
Qed.

(** X2: when the resolved user is not online, the initial sync sets the
    status to OFFLINE whatever the status is (offline, hidden or empty);
    [last_seen] becomes the formatted [was_online] when the status is
    offline with such a time, and the sentinel otherwise; [online_since]
    and [duration] are not written; the snapshot is broadcast once and
    the handler is registered. *)
Theorem initial_sync_not_online now uid st env s :
  (∀ expires, st ≠ UserStatusOnline expires) →
  ∃ s',
    telegram_worker now uid st env s =
      (Returned (), s',
       BroadcastCall (state s') ::
       map (λ ws, SendJson ws (state s') (bool_decide (ws ∉ env)))
           (elements (clients s))) ∧
    status (state s') = "OFFLINE" ∧
    last_seen (state s') = synced_last_seen st ∧
    online_since s' = online_since s ∧
    duration (state s') = duration (state s) ∧
    name (state s') = name (state s) ∧
    clients s' = clients s ∖ env ∧
    user_id s' = Some uid.
Proof.
  intros Hst. exists (with_user_id (Some uid) (pruned env (synced now st s))).
  rewrite telegram_worker_spec.
  destruct st as [|e|[w|]| | |]; try done. by destruct (Hst e).
Qed.

(** [initial_sync_not_online] for a user whose status is hidden. *)
Lemma initial_sync_not_online_witness :
  (∀ expires, UserStatusRecently ≠ UserStatusOnline expires) ∧
  ∃ s',
    telegram_worker (seconds 100) 7 UserStatusRecently {[2%nat]} (initial "User") =
      (Returned (), s',
       BroadcastCall (state s') ::
       map (λ ws, SendJson ws (state s') (bool_decide (ws ∉ ({[2%nat]} : gset nat))))
           (elements (clients (initial "User")))) ∧
    status (state s') = "OFFLINE" ∧
    last_seen (state s') = synced_last_seen UserStatusRecently ∧
    online_since s' = online_since (initial "User") ∧
    duration (state s') = duration (state (initial "User")) ∧
    name (state s') = name (state (initial "User")) ∧
    clients s' = clients (initial "User") ∖ {[2%nat]} ∧
    user_id s' = Some 7.
Proof.
  split; [discriminate|].
  apply (initial_sync_not_online (seconds 100) 7 UserStatusRecently {[2%nat]} (initial "User")).
  discriminate.
Defined.

(** ** Events the handler answers silently *)

(** X3: a 'became offline' event for the tracked identity is silent: the
    handler returns, sends nothing, leaves the snapshot, the observers and
    the handler registration as they are, and clears [online_since]. *)
Theorem handler_offline_is_silent uid now was env s :
  ∃ s',
    handler uid now (UpdateUserStatus uid (UserStatusOffline was)) env s =
      (Returned (), s', []) ∧
    state s' = state s ∧
    clients s' = clients s ∧
    user_id s' = user_id s ∧
    online_since s' = None.
Proof.
  exists (armed now (disarmed s)).
  split; [apply handler_offline; simpl; by rewrite decide_True|].
  destruct (disarmed_fields s) as (Hc & Hd & Ho & _ & Hu & _). done.
Qed.

(** X4: a status update of the tracked identity that is neither online
    nor offline (empty, recently, last week, last month) changes nothing
    and sends nothing, although the initial sync treats the same status
    as OFFLINE. *)
Theorem handler_ignores_hidden_status uid now st env s :
  hidden st →
  handler uid now (UpdateUserStatus uid st) env s = (Returned (), s, []) ∧
  status (state (telegram_worker now uid st env s).1.2) = "OFFLINE".
Proof.
  intros Hh. split.
  - apply handler_ignores. destruct st; done.
  - rewrite telegram_worker_spec. destruct st; done.
Qed.

(** [handler_ignores_hidden_status] on a 'last week' update. *)
Lemma handler_ignores_hidden_status_witness :
  hidden UserStatusLastWeek ∧
  handler 7 (seconds 20) (UpdateUserStatus 7 UserStatusLastWeek) ∅ found_online =
    (Returned (), found_online, []) ∧
  status (state (telegram_worker (seconds 20) 7 UserStatusLastWeek ∅ found_online).1.2) = "OFFLINE".
Proof.
  split; [exact I|].
  exact (handler_ignores_hidden_status 7 (seconds 20) UserStatusLastWeek ∅ found_online I).
Defined.

(** ** Observers *)

(** X5: right after a broadcast, a second broadcast under the same set of
    broken websockets drops nobody, meets no failure, and leaves the
    state as the first one left it. *)
Theorem broadcast_twice env s :
  let s1 := (broadcast env s).1.2 in
  broadcast env s1 =
    (Returned (), s1,
     BroadcastCall (state s) ::
     map (λ ws, SendJson ws (state s) true) (elements (clients s1))).
Proof.
  intros s1. subst s1. rewrite !broadcast_spec. simpl.
  f_equal; [f_equal; sys_eq|]. unfold broadcast_log. simpl. f_equal.
  apply map_ext_in. intros ws Hin.
  apply list_elem_of_In, elem_of_elements, elem_of_difference in Hin as [_ Hout].
  by rewrite bool_decide_eq_true_2.
Qed.

(** X6: [clients.discard] never fails: the disconnect path returns and
    sends nothing whether or not the observer is registered, removes only
    that observer, and is a no-op when it is not registered; connecting
    an unregistered observer and disconnecting it restores the state. *)
Theorem disconnect_discards ws env env' s :
  (∃ s',
     websocket_disconnect ws env s = (Returned (), s', []) ∧
     (∀ w, w ∈ clients s' ↔ w ∈ clients s ∧ w ≠ ws) ∧
     s' = with_clients (clients s') s) ∧
  (ws ∉ clients s →
   (websocket_disconnect ws env s).1.2 = s ∧
   (websocket_disconnect ws env' (websocket_endpoint ws env s).1.2).1.2 = s).
Proof.
  split.
  - exists (with_clients (clients s ∖ {[ws]}) s). split; [done|]. split; [|done].
    intros w. simpl. set_solver.
  - intros Hout. destruct (websocket_endpoint_spec ws env s) as [-> _].
    split; exec; sys_eq.
Qed.

(** [disconnect_discards] on an observer that never connected. *)
Lemma disconnect_discards_witness :
  (3%nat ∉ clients found_online) ∧
  (websocket_disconnect 3 {[3%nat]} found_online).1.2 = found_online ∧
  (websocket_disconnect 3 ∅ (websocket_endpoint 3 {[3%nat]} found_online).1.2).1.2 =
    found_online.
Proof.
  assert (3%nat ∉ clients found_online) as Hout by (vm_compute; set_solver).
  split; [exact Hout|].
  exact (proj2 (disconnect_discards 3 {[3%nat]} ∅ found_online) Hout).
Defined.

(** X7: when the first [send_json] of [websocket_endpoint] fails, the
    exception leaves the coroutine before its [try], so the observer
    stays registered; the next broadcast that meets the failure removes
    it. *)
Theorem failed_registration_is_pruned ws env env' s :
  ws ∈ env → ws ∈ env' →
  let r := websocket_endpoint ws env s in
  r.1.1 = Raised RuntimeError ∧
  ws ∈ clients r.1.2 ∧
  delivered r.2 = [] ∧
  (broadcast env' r.1.2).1.1 = Returned () ∧
  ws ∉ clients (broadcast env' r.1.2).1.2.
Proof.
  intros Hin Hin' r. subst r.
  destruct (websocket_endpoint_spec ws env s) as [Hs Hl].
  rewrite Hs, Hl, broadcast_spec. simpl.
  rewrite bool_decide_eq_false_2 by tauto.
  repeat split; try done.
  - exec. by rewrite decide_True.
  - set_solver.
  - set_solver.
Qed.

(** [failed_registration_is_pruned] on a websocket broken from the start. *)
Lemma failed_registration_is_pruned_witness :
  3%nat ∈ ({[3%nat]} : gset nat) ∧
  let r := websocket_endpoint 3 {[3%nat]} found_online in
  r.1.1 = Raised RuntimeError ∧
  3%nat ∈ clients r.1.2 ∧
  delivered r.2 = [] ∧
  (broadcast {[3%nat]} r.1.2).1.1 = Returned () ∧
  3%nat ∉ clients (broadcast {[3%nat]} r.1.2).1.2.
Proof.
  assert (3%nat ∈ ({[3%nat]} : gset nat)) as Hin by set_solver.
  split; [exact Hin|].
  exact (failed_registration_is_pruned 3 {[3%nat]} {[3%nat]} found_online Hin Hin).
Defined.

(** ** Invariants of runs, with their logs *)

(** A state property kept by the transitions allowed by [R], each of
    which leaves a log satisfying [Q], holds after every run of allowed
    inputs, whose whole log satisfies [Q]. *)
Lemma run_log_invariant (R : gset nat * input → Prop) (P : sys → Prop)
    (Q : list output → Prop) :
  Q [] → (∀ l1 l2, Q l1 → Q l2 → Q (l1 ++ l2)) →
  (∀ env s i s' log, R (env, i) → P s → effect env s i s' log → P s' ∧ Q log) →
  ∀ tr s, Forall R tr → P s → P (run tr s).1 ∧ Q (run tr s).2.
Proof.
  intros Hnil Happ Hstep tr.
  induction tr as [|[env i] tr IH]; intros s Hall Hs; [done|].
  apply Forall_cons in Hall as [Hi Hall]. rewrite run_cons. simpl.
  destruct (Hstep env s i _ _ Hi Hs (step_effect i env s)) as [Hs1 Hq1].
  destruct (IH _ Hall Hs1) as [Hs2 Hq2]. split; [done|]. by apply Happ.
Qed.

Lemma Forall_all {A} (l : list A) : Forall (λ _, True) l.
Proof. by apply Forall_forall. Qed.

Lemma payloads_app l1 l2 : payloads (l1 ++ l2) = payloads l1 ++ payloads l2.
Proof. apply omap_app. Qed.

Lemma payloads_broadcast_log env s d :
  d ∈ payloads (broadcast_log env s) → d = state s.
Proof.
  unfold broadcast_log, payloads. simpl.
  induction (elements (clients s)) as [|ws l IH]; simpl.
  - by intros ?%elem_of_nil.
  - intros [->|Hin]%elem_of_cons; [done|]. by apply IH.
Qed.

(** What a transition sends: nothing, one broadcast of the new snapshot
    to the observers it met, or the stored snapshot to a new observer. *)
Lemma log_effect env s i s' log :
  effect env s i s' log →
  log = [] ∨
  (∃ s0, log = broadcast_log env s0 ∧ state s' = state s0 ∧
         clients s0 = clients s ∧ clients s' = clients s ∖ env ∧
         (∀ ws, i ≠ WsConnect ws) ∧ (∀ ws, i ≠ WsDisconnect ws)) ∨
  (∃ ws, i = WsConnect ws ∧ state s' = state s ∧
         clients s' = {[ws]} ∪ clients s ∧
         log = [SendJson ws (state s) (bool_decide (ws ∉ env))]).
Proof.
  intros He. destruct He; try (by left).
  - right; left. exists (synced now st s).
    destruct (synced_fields now st s) as (Hc & _). simpl. by rewrite Hc.
  - right; left. exists (go_online now (drop_handle s)).
    destruct (drop_handle_fields s) as (Hc & _). simpl. by rewrite Hc.
  - right; left. by exists (confirm_offline now s).
  - right; right. by exists ws.
Qed.

(** ** What the observers see over a run *)

(** X8: whatever the start state and the inputs, every broadcast carries
    status ONLINE or OFFLINE: CONNECTING is never broadcast, it can only
    reach an observer through the send at registration. *)
Theorem broadcasts_are_decided tr s :
  Forall (λ d, status d = "ONLINE" ∨ status d = "OFFLINE") (broadcasts (run tr s).2).
Proof.
  apply (run_log_invariant (λ _, True) (λ _, True)
           (λ log, Forall (λ d, status d = "ONLINE" ∨ status d = "OFFLINE")
                     (broadcasts log))); try done.
  - intros l1 l2 H1 H2. rewrite broadcasts_app. by apply Forall_app.
  - intros env s0 i s' log _ _ He. split; [done|].
    destruct He; try (by constructor);
      rewrite broadcasts_broadcast_log; (constructor; [|constructor]).
    + destruct st as [| |[w|]| | |]; simpl; auto.
    + by left.
    + by right.
  - apply Forall_all.
Qed.

Lemma online_is_status : "ONLINE" ∈ ["CONNECTING"; "ONLINE"; "OFFLINE"].
Proof. rewrite !elem_of_cons. auto. Qed.

Lemma offline_is_status : "OFFLINE" ∈ ["CONNECTING"; "ONLINE"; "OFFLINE"].
Proof. rewrite !elem_of_cons. auto. Qed.

Lemma wire_ok_effect nm env s i s' log :
  wire_ok nm (state s) → effect env s i s' log →
  wire_ok nm (state s') ∧ Forall (wire_ok nm) (payloads log).
Proof.
  intros Hs He.
  assert (wire_ok nm (state s')) as Hs'.
  { destruct Hs as (Hn & Hd & Hst & Hl).
    destruct He; try (by repeat split).
    - destruct st as [| |[w|]| | |]; simpl;
        (split; [done|]); (split; [done|]);
        (split; [try apply online_is_status; try apply offline_is_status|]);
        try done; try (by left). right. by exists w.
    - by destruct (drop_handle_fields s) as (_ & -> & _).
    - destruct (drop_handle_fields s) as (_ & Hds & _). simpl. rewrite Hds.
      split; [done|]. split; [done|]. split; [apply online_is_status|done].
    - destruct (disarmed_fields s) as (_ & Hds & _). simpl. by rewrite Hds.
    - simpl. split; [done|]. split; [done|]. split; [apply offline_is_status|].
      right. by eexists. }
  split; [done|].
  destruct (log_effect _ _ _ _ _ He) as [->|[(s0 & -> & Hst & _)|(ws & _ & _ & _ & ->)]].
  - constructor.
  - apply Forall_forall. intros d ->%payloads_broadcast_log. by rewrite <- Hst.
  - constructor; [done|constructor].
Qed.

(** X9: in every run from the initial state, every snapshot that leaves
    the process, by broadcast or at registration, carries the configured
    name, an empty duration, one of the three status values, and as
    [last_seen] either the sentinel or a formatted time; so does the
    stored snapshot at the end. *)
Theorem snapshots_on_the_wire TARGET_NAME tr :
  Forall (wire_ok TARGET_NAME) (payloads (run tr (initial TARGET_NAME)).2) ∧
  wire_ok TARGET_NAME (state (run tr (initial TARGET_NAME)).1).
Proof.
  apply and_comm.
  apply (run_log_invariant (λ _, True) (λ s, wire_ok TARGET_NAME (state s))
           (λ log, Forall (wire_ok TARGET_NAME) (payloads log))).
  - constructor.
  - intros l1 l2 H1 H2. rewrite payloads_app. by apply Forall_app.
  - intros env s i s' log _ Hs He. by eapply wire_ok_effect.
  - apply Forall_all.
  - split; [done|]. split; [done|]. split; [|by left].
    rewrite !elem_of_cons. auto.
Qed.


(** ** Successive broadcasts *)

Lemma user_id_effect env s i s' log :
  effect env s i s' log → user_id s' = None → user_id s = None.
Proof.
  intros He Hu. destruct He; try done.
  - destruct (drop_handle_fields s) as (_ & _ & _ & _ & Hid). congruence.
  - destruct (drop_handle_fields s) as (_ & _ & _ & _ & Hid). simpl in Hu. congruence.
  - destruct (disarmed_fields s) as (_ & _ & _ & _ & Hid & _). simpl in Hu. congruence.
Qed.

(** A transition broadcasts nothing and keeps the status, or broadcasts
    the new snapshot once; where the worker has not started with status
    ONLINE, that snapshot is not ONLINE again. *)
Lemma broadcast_effect env s i s' log :
  (user_id s = None → status (state s) ≠ "ONLINE") →
  effect env s i s' log →
  (user_id s' = None → status (state s') ≠ "ONLINE") ∧
  ((broadcasts log = [] ∧ status (state s') = status (state s)) ∨
   (broadcasts log = [state s'] ∧
    (status (state s) = "ONLINE" → status (state s') ≠ "ONLINE"))).
Proof.
  intros Hk He. split.
  - intros Hu'. pose proof (user_id_effect _ _ _ _ _ He Hu') as Hu.
    specialize (Hk Hu). destruct He; try done; try congruence.
  - destruct He; try (by left).
    + right. rewrite broadcasts_broadcast_log. split; [done|].
      intros Hon. by destruct Hk.
    + left. by destruct (drop_handle_fields s) as (_ & -> & _).
    + right. rewrite broadcasts_broadcast_log. split; [done|]. done.
    + left. split; [done|]. simpl.
      by destruct (disarmed_fields s) as (_ & -> & _).
    + right. rewrite broadcasts_broadcast_log. split; [done|]. done.
Qed.

Lemma no_online_pair_run tr s :
  (user_id s = None → status (state s) ≠ "ONLINE") →
  no_online_pair (broadcasts (run tr s).2) ∧
  (status (state s) = "ONLINE" →
   ∀ d rest, broadcasts (run tr s).2 = d :: rest → status d ≠ "ONLINE").
Proof.
  revert s. induction tr as [|[env i] tr IH]; intros s Hk; [done|].
  rewrite run_cons. simpl. rewrite broadcasts_app.
  destruct (broadcast_effect env s i _ _ Hk (step_effect i env s)) as [Hk1 Hb].
  destruct (IH _ Hk1) as [Hp Hh].
  destruct Hb as [[-> Hst]|[-> Hst]]; simpl.
  - split; [done|]. intros Hon. apply Hh. congruence.
  - split.
    + split; [|done].
      destruct (broadcasts (run tr (step i env s).1.2).2) as [|d2 rest] eqn:Hbs; [done|].
      intros [Hon1 Hon2]. by eapply Hh.
    + intros Hon d rest [= <- _]. by apply Hst.
Qed.

(** X12: in every run from the initial state, two successive broadcasts
    never both carry status ONLINE, whatever happens between them. *)
Theorem no_two_online_broadcasts_in_a_row TARGET_NAME tr :
  no_online_pair (broadcasts (run tr (initial TARGET_NAME)).2).
Proof. by apply no_online_pair_run. Qed.

(** ** The guard of [delayed_offline] and [online_since] *)

Lemma guard_inv_effect env s i s' log :
  guard_inv s → effect env s i s' log → guard_inv s'.
Proof.
  intros (Hinv & Hg & Hn) He.
  split; [by eapply handle_inv_effect|].
  pose proof (user_id_effect _ _ _ _ _ He) as Hu.
  destruct He; try done.
  - destruct (synced_fields now st s) as (_ & Ht & _).
    assert (∀ t, ¬ live (with_user_id (Some uid) (pruned env (synced now st s))) t) as Hd.
    { intros t [w Hw]. simpl in Hw. rewrite Ht in Hw.
      match goal with Hid : user_id s = None |- _ => apply (Hn Hid t) end.
      by exists w. }
    split; [intros t Hl|intros _ t Hl]; by apply Hd in Hl.
  - split; [intros t Hl|intros _ t Hl]; by apply (drop_handle_not_live s t) in Hl.
  - assert (∀ t, ¬ live (pruned env (go_online now (drop_handle s))) t) as Hd
      by (intros t Hl; by apply (drop_handle_not_live s t) in Hl).
    split; [intros t Hl|intros _ t Hl]; by apply Hd in Hl.
  - destruct (disarmed_fields s) as (_ & _ & Ho & _ & Hid' & _). split.
    + intros t _. exact Ho.
    + intros Hid. specialize (Hu Hid). congruence.
  - split.
    + intros t' Hl. apply live_finished in Hl as [Hl _]. by apply Hg in Hl.
    + intros Hid t' Hl. apply live_finished in Hl as [Hl _]. by apply (Hn Hid t').
  - split.
    + intros t' Hl. apply live_finished in Hl as [Hl _]. by apply Hg in Hl.
    + intros Hid t' Hl. apply live_finished in Hl as [Hl _]. by apply (Hn Hid t').
Qed.

Lemma guard_inv_reachable s : reachable s → guard_inv s.
Proof.
  apply (reachable_invariant guard_inv).
  - intros nm. split; [|split].
    + by intros t [w Hw].
    + by intros t [w Hw].
    + by intros _ t [w Hw].
  - intros. by eapply guard_inv_effect.
Qed.

(** X13: in every reachable state, a pending timer means [online_since]
    is [None]; so the guard of [delayed_offline] never fails: whenever
    the sleep of a task that was not cancelled returns, the status
    becomes OFFLINE and one broadcast carries it, with the wake-up time
    as [last_seen]. *)
Theorem timer_always_confirms now t wake_at env s :
  reachable s →
  tasks s !! t = Some (Sleeping wake_at) → wake_at ≤ now →
  online_since s = None ∧
  ∃ d,
    broadcasts (sleep_elapsed now t env s).2 = [d] ∧
    state (sleep_elapsed now t env s).1.2 = d ∧
    status d = "OFFLINE" ∧
    last_seen d = Strftime.strftime now ∧
    ¬ live (sleep_elapsed now t env s).1.2 t.
Proof.
  intros Hr Ht Hw. destruct (guard_inv_reachable s Hr) as (_ & Hg & _).
  assert (online_since s = None) as Ho by (apply (Hg t); by exists wake_at).
  split; [done|]. exists (state (confirm_offline now s)).
  rewrite (sleep_elapsed_fires now t wake_at env s Ht Hw Ho). cbn [fst snd].
  rewrite broadcasts_broadcast_log. repeat split.
  intros Hl. apply live_finished in Hl as [_ Hne]. done.
Qed.

(** [timer_always_confirms] on the pending handle armed at 5 s, due at
    45 s, woken at 47 s. *)
Lemma timer_always_confirms_witness :
  reachable pending_offline ∧
  tasks pending_offline !! 0%nat = Some (Sleeping (seconds 45)) ∧
  seconds 45 ≤ seconds 47 ∧
  online_since pending_offline = None ∧
  ∃ d,
    broadcasts (sleep_elapsed (seconds 47) 0 ∅ pending_offline).2 = [d] ∧
    state (sleep_elapsed (seconds 47) 0 ∅ pending_offline).1.2 = d ∧
    status d = "OFFLINE" ∧
    last_seen d = Strftime.strftime (seconds 47) ∧
    ¬ live (sleep_elapsed (seconds 47) 0 ∅ pending_offline).1.2 0%nat.
Proof.
  assert (seconds 45 ≤ seconds 47) as Hw by (unfold seconds; lia).
  split; [exact reachable_pending_offline|].
  split; [reflexivity|]. split; [exact Hw|].
  exact (timer_always_confirms (seconds 47) 0 (seconds 45) ∅ pending_offline
           reachable_pending_offline eq_refl Hw).
Defined.

Lemma since_inv_effect env s i s' log :
  since_inv s → effect env s i s' log → since_inv s'.
Proof.
  intros [Hs Hn] He.
  pose proof (user_id_effect _ _ _ _ _ He) as Hu.
  destruct He; try done.
  - split; [|done].
    match goal with Hid : user_id s = None |- _ => specialize (Hn Hid) end.
    destruct st as [| |[w|]| | |]; simpl; try done; rewrite Hn; by intros [? ?].
  - destruct (drop_handle_fields s) as (_ & Hd & Ho & _). split.
    + by rewrite Hd, Ho.
    + intros Hid. rewrite Ho. auto.
  - split; [done|]. intros Hid. specialize (Hu Hid). congruence.
  - destruct (disarmed_fields s) as (_ & _ & Ho & _). split.
    + simpl. rewrite Ho. by intros [? ?].
    + by simpl.
  - split; [|done]. simpl.
    match goal with Ho : online_since s = None |- _ => rewrite Ho end.
    by intros [? ?].
Qed.

Lemma reachable_run tr s : reachable s → reachable (run tr s).1.
Proof.
  intros (nm & tr0 & <-). exists nm, (tr0 ++ tr). by rewrite run_app.
Qed.

(** X14: in every reachable state, [online_since] is set only while the
    status is ONLINE. The converse fails after every flicker met while
    ONLINE: from any reachable state with status ONLINE in which the
    handler tracks [uid], a 'became offline' event followed by a 'became
    online' event leads to a reachable state whose status is ONLINE and
    whose [online_since] is [None]. *)
Theorem online_since_means_online :
  (∀ s, reachable s → is_Some (online_since s) → status (state s) = "ONLINE") ∧
  (∀ s uid t1 t2 was expires env1 env2,
     reachable s → user_id s = Some uid → status (state s) = "ONLINE" →
     let s' := (run [(env1, RawEvent t1 (UpdateUserStatus uid (UserStatusOffline was)));
                     (env2, RawEvent t2 (UpdateUserStatus uid (UserStatusOnline expires)))]
                    s).1 in
     reachable s' ∧ status (state s') = "ONLINE" ∧ online_since s' = None).
Proof.
  split.
  - intros s Hr. apply (reachable_invariant since_inv); [| |exact Hr].
    + intros nm. split; [by intros [? ?]|done].
    + intros. by eapply since_inv_effect.
  - intros s uid t1 t2 was expires env1 env2 Hr Hu Hst s'.
    split; [by apply reachable_run|]. subst s'.
    destruct (disarmed_fields s) as (_ & Hd & Ho & _ & Hid & _).
    set (s1 := armed t1 (disarmed s)).
    assert (step (RawEvent t1 (UpdateUserStatus uid (UserStatusOffline was))) env1 s =
            (Returned (), s1, [])) as Hstep1.
    { unfold step. exec. rewrite Hu.
      rewrite handler_offline by (simpl; by rewrite decide_True). done. }
    assert (status (state s1) = "ONLINE") as Hst1 by (simpl; by rewrite Hd).
    assert (step (RawEvent t2 (UpdateUserStatus uid (UserStatusOnline expires))) env2 s1 =
            (Returned (), drop_handle s1, [])) as Hstep2.
    { unfold step. exec. replace (user_id (disarmed s)) with (Some uid) by congruence.
      rewrite handler_online_again; [done| |done]. simpl; by rewrite decide_True. }
    rewrite !run_cons, Hstep1. cbn [fst snd]. rewrite Hstep2. cbn [fst snd run].
    destruct (drop_handle_fields s1) as (_ & -> & -> & _). done.
Qed.

(** [online_since_means_online] on the state found online, and on a
    flicker met there. *)
Lemma online_since_means_online_witness :
  reachable found_online ∧ is_Some (online_since found_online) ∧
  user_id found_online = Some 7 ∧
  status (state found_online) = "ONLINE" ∧
  let s' := (run [(∅, RawEvent (seconds 5) (UpdateUserStatus 7 (UserStatusOffline None)));
                  (∅, RawEvent (seconds 9) (UpdateUserStatus 7 (UserStatusOnline (seconds 309))))]
                 found_online).1 in
  reachable s' ∧ status (state s') = "ONLINE" ∧ online_since s' = None.
Proof.
  assert (is_Some (online_since found_online)) as Hs by (by exists 0).
  pose proof (proj1 online_since_means_online found_online reachable_found_online Hs)
    as Hst.
  split; [exact reachable_found_online|]. split; [exact Hs|].
  split; [reflexivity|]. split; [exact Hst|].
  exact (proj2 online_since_means_online found_online 7 (seconds 5) (seconds 9) None
           (seconds 309) ∅ ∅ reachable_found_online eq_refl Hst).
Defined.

(** ** Before the identity is resolved *)

Lemma user_id_run tr s : user_id (run tr s).1 = None → user_id s = None.
Proof.
  revert s. induction tr as [|[env i] tr IH]; intros s Hu; [done|].
  rewrite run_cons in Hu. simpl in Hu. apply IH in Hu.
  by eapply user_id_effect; [apply step_effect|].
Qed.

Lemma unresolved_run nm tr s :
  unresolved nm s → user_id (run tr s).1 = None →
  unresolved nm (run tr s).1 ∧
  broadcasts (run tr s).2 = [] ∧
  Forall (λ d, d = state (initial nm)) (payloads (run tr s).2).
Proof.
  revert s. induction tr as [|[env i] tr IH]; intros s Hs Hu.
  - split; [done|]. split; [done|]. constructor.
  - rewrite run_cons in *. simpl in *.
    pose proof (user_id_run _ _ Hu) as Hu1.
    destruct Hs as (Hst & Hos & Hot & Hts & Hid).
    assert (unresolved nm (step i env s).1.2 ∧ broadcasts (step i env s).2 = [] ∧
            Forall (λ d, d = state (initial nm)) (payloads (step i env s).2))
      as (Hs1 & Hb1 & Hp1).
    { destruct (step_effect i env s); simpl in *;
        try congruence;
        try (match goal with Hl : tasks s !! _ = Some _ |- _ =>
               rewrite Hts in Hl; done end);
        try (match goal with Hi : is_Some (user_id s) |- _ =>
               destruct Hi as [u Hi]; congruence end);
        by (split; [done|]; split; [done|]; repeat constructor). }
    destruct (IH _ Hs1 Hu) as (Hs2 & Hb2 & Hp2).
    split; [done|]. rewrite broadcasts_app, payloads_app, Hb1, Hb2.
    split; [done|]. by apply Forall_app.
Qed.

(** X15: as long as the worker has not resolved the identity (it never
    does when resolution fails), the stored snapshot is the initial one
    with status CONNECTING, there is no timer and no [online_since],
    raw events and wake-ups have no effect, nothing is broadcast, and
    every observer that connects is sent that initial snapshot. *)
Theorem before_resolution TARGET_NAME tr :
  user_id (run tr (initial TARGET_NAME)).1 = None →
  unresolved TARGET_NAME (run tr (initial TARGET_NAME)).1 ∧
  broadcasts (run tr (initial TARGET_NAME)).2 = [] ∧
  Forall (λ d, d = state (initial TARGET_NAME))
    (payloads (run tr (initial TARGET_NAME)).2).
Proof. by apply unresolved_run. Qed.

(** [before_resolution] on a run with observers and premature inputs. *)
Lemma before_resolution_witness :
  let tr := [(∅, WsConnect 1%nat);
             (∅, RawEvent (seconds 5) (UpdateUserStatus 7 (UserStatusOffline None)));
             (∅, SleepElapsed (seconds 50) 0%nat); ({[2%nat]}, WsConnect 2%nat)] in
  user_id (run tr (initial "User")).1 = None ∧
  broadcasts (run tr (initial "User")).2 = [] ∧
  Forall (λ d, d = state (initial "User")) (payloads (run tr (initial "User")).2).
Proof.
  intros tr. split; [reflexivity|].
  exact (proj2 (before_resolution "User" tr eq_refl)).
Defined.

(** ** Repeated offline reports *)

(** X16: a second 'became offline' event restarts the delay: after an
    offline report at [t1] and another at [t2], no wake-up before
    [t2 + 40] has any effect, not even one later than [t1 + 40]; the only
    sleeping task is the one armed at [t2]. *)
Theorem offline_again_restarts_delay uid t1 t2 was1 was2 env1 env2 s :
  reachable s →
  let s1 := (handler uid t1 (UpdateUserStatus uid (UserStatusOffline was1)) env1 s).1.2 in
  let s2 := (handler uid t2 (UpdateUserStatus uid (UserStatusOffline was2)) env2 s1).1.2 in
  (∀ t w, tasks s2 !! t = Some (Sleeping w) → w = t2 + OFFLINE_DELAY) ∧
  (∀ now t env, now < t2 + OFFLINE_DELAY →
     sleep_elapsed now t env s2 = (Returned (), s2, [])).
Proof.
  intros Hr s1 s2. apply handle_inv_reachable in Hr as Hinv.
  assert (s1 = armed t1 (disarmed s)) as Hs1
    by (subst s1; rewrite handler_offline by (simpl; by rewrite decide_True); done).
  assert (s2 = armed t2 (disarmed s1)) as Hs2
    by (subst s2; rewrite handler_offline by (simpl; by rewrite decide_True); done).
  assert (handle_inv s1) as Hinv1 by (rewrite Hs1; by apply handle_inv_rearmed).
  clearbody s1 s2.
  assert (∀ t w, tasks s2 !! t = Some (Sleeping w) → w = t2 + OFFLINE_DELAY) as Hw.
  { intros t w Ht. rewrite Hs2 in Ht. apply sleeping_armed in Ht as [Ht|[_ ->]]; [|done].
    destruct (disarmed_not_live s1 t Hinv1). by exists w. }
  split; [exact Hw|]. intros now t env Hnow.
  destruct (tasks s2 !! t) as [[w| |]|] eqn:Ht;
    try (apply sleep_elapsed_dead; intros [w' Hw']; congruence).
  apply (sleep_elapsed_early now t w); [done|]. apply Hw in Ht. lia.
Qed.

(** [offline_again_restarts_delay] for reports at 0 s and 30 s and a
    wake-up attempt at 60 s. *)
Lemma offline_again_restarts_delay_witness :
  reachable found_online ∧
  let s1 := (handler 7 (seconds 0) (UpdateUserStatus 7 (UserStatusOffline None)) ∅ found_online).1.2 in
  let s2 := (handler 7 (seconds 30) (UpdateUserStatus 7 (UserStatusOffline None)) ∅ s1).1.2 in
  seconds 60 < seconds 30 + OFFLINE_DELAY ∧
  sleep_elapsed (seconds 60) 0 ∅ s2 = (Returned (), s2, []).
Proof.
  assert (seconds 60 < seconds 30 + OFFLINE_DELAY) as Hnow
    by (unfold OFFLINE_DELAY, seconds; lia).
  split; [exact reachable_found_online|]. intros s1 s2. split; [exact Hnow|].
  exact (proj2 (offline_again_restarts_delay 7 (seconds 0) (seconds 30) None None ∅ ∅
                  found_online reachable_found_online) (seconds 60) 0%nat ∅ Hnow).
Defined.
